(** * The IKEA catalogue client ([ikea_lib.py]) and its disk cache

    A shallow embedding of [IkeaApiWrapper]: the three string helpers, the
    HTTP layer ([_get], [_get_json]) and the four cache-first operations
    together with [search], followed by the properties stated about them. *)

From Stdlib Require Import String Ascii ZArith Bool List Lia.
From stdpp Require Import base option strings gmap.
Import ListNotations.

Local Open Scope string_scope.
Local Open Scope Z_scope.
Local Open Scope list_scope.
Local Set Warnings "-register-all".

(** ** Python strings

    A [str] is modelled by a Rocq [string]: a sequence of code points below
    256.  On that range the class [\d] of [re] (Unicode decimal digits) is
    exactly ['0'..'9'].  Strings with other code points are outside the
    model: there [\d] also matches the decimal digits of other scripts,
    which [[^0-9]] does not take for digits. *)

Module PyStr.

Definition newline : ascii := "010"%char.
Definition dot : ascii := "."%char.

(** [0-9] *)
Definition is_digit (c : ascii) : bool :=
  ((48 <=? nat_of_ascii c) && (nat_of_ascii c <=? 57))%nat.

(** [s[lo:hi]] for literal bounds [0 <= lo <= hi]: clamped to the string. *)
Definition slice (lo hi : nat) (s : string) : string :=
  substring lo (hi - lo) s.

(** [s[lo:]] *)
Fixpoint slice_from (lo : nat) (s : string) : string :=
  match lo, s with
  | O, _ => s
  | S _, EmptyString => EmptyString
  | S lo', String _ s' => slice_from lo' s'
  end.

(** [needle in hay] on two strings *)
Fixpoint contains (needle hay : string) : bool :=
  String.prefix needle hay
  || match hay with
     | EmptyString => false
     | String _ hay' => contains needle hay'
     end.

End PyStr.

(** ** The fragment of [re] the client uses *)

Module Re.
Import PyStr.

Inductive regex : Type :=
| Bol                          (* ^ *)
| Eol                          (* $ *)
| Cls (p : ascii -> bool)      (* a class of one character: \d \. [^0-9] *)
| Opt (r : regex)              (* r? *)
| Rep (n : nat) (r : regex)    (* r{n} *)
| Cat (r1 r2 : regex).

(** Without [re.MULTILINE], [$] holds at the end of the string and also
    just before a newline that is the string's last character. *)
Definition at_eol (rest : string) : bool :=
  match rest with
  | EmptyString => true
  | String c EmptyString => Ascii.eqb c newline
  | _ => false
  end.

(** Backtracking matcher: [walk r bos rest k] tries [r] at the current
    position ([bos] says whether it is position 0, [rest] is the text from
    there on) and hands what is left to the continuation [k]. *)
Fixpoint walk (r : regex) (bos : bool) (rest : string)
         (k : bool -> string -> bool) : bool :=
  match r with
  | Bol => bos && k bos rest
  | Eol => at_eol rest && k bos rest
  | Cls p =>
      match rest with
      | String c rest' => p c && k false rest'
      | EmptyString => false
      end
  | Opt r1 => walk r1 bos rest k || k bos rest
  | Rep n r1 =>
      (fix times (n : nat) (bos : bool) (rest : string) : bool :=
         match n with
         | O => k bos rest
         | S n' => walk r1 bos rest (fun b s => times n' b s)
         end) n bos rest
  | Cat r1 r2 => walk r1 bos rest (fun b s => walk r2 b s k)
  end.

(** [re.match(r, s) is not None]: [r] matches some prefix of [s]. *)
Definition re_match (r : regex) (s : string) : bool :=
  walk r true s (fun _ _ => true).

(** [re.sub(c, repl, s)] for a pattern [c] that is one character class:
    every character of the class is replaced by [repl]. *)
Fixpoint re_sub_cls (p : ascii -> bool) (repl s : string) : string :=
  match s with
  | EmptyString => EmptyString
  | String c s' =>
      if p c then repl +:+ re_sub_cls p repl s'
      else String c (re_sub_cls p repl s')
  end.

Definition d : regex := Cls is_digit.                          (* \d *)
Definition lit (c : ascii) : regex := Cls (Ascii.eqb c).       (* \c *)
Definition not_0_9 : ascii -> bool := fun c => negb (is_digit c). (* [^0-9] *)

End Re.

(** ** The string helpers of [IkeaApiWrapper] *)

Import PyStr Re.

(** [r"^\d{3}\.?\d{3}\.?\d{2}$"] *)
Definition item_no_pattern : regex :=
  Cat Bol
 (Cat (Rep 3 d) (Cat (Opt (lit dot))
 (Cat (Rep 3 d) (Cat (Opt (lit dot))
 (Cat (Rep 2 d) Eol))))).

Definition is_item_no (itemNo : string) : bool :=
  re_match item_no_pattern itemNo.

Definition compact_item_no (itemNo : string) : string :=
  re_sub_cls not_0_9 "" itemNo.

Definition format_item_no (itemNo : string) : string :=
  let itemNo := compact_item_no itemNo in
  slice 0 3 itemNo +:+ "." +:+ slice 3 6 itemNo +:+ "." +:+ slice 6 8 itemNo.

(** ** JSON values, as [json.loads] returns them

    A dict is an association list read through its first binding of a key;
    numbers are the integers. *)

Inductive json : Type :=
| JNull
| JBool (b : bool)
| JNum (n : Z)
| JStr (s : string)
| JArr (xs : list json)
| JObj (kvs : list (string * json)).

(** ** Exceptions and log records *)

(** The places where the client catches, logs and wraps an exception. *)
Inductive site : Type :=
| Fetching (url : string)               (* "Error fetching {url}" *)
| Searching (query : string)            (* "Error searching for {query}" *)
| DownloadingPip (itemNo : string)      (* "Error downloading PIP for #{itemNo}" *)
| DownloadingThumbnail (itemNo : string)
| CheckingExistence (itemNo : string)   (* "Error checking model existence for #{itemNo}" *)
| DownloadingModel (itemNo : string).

Inductive exn : Type :=
| IkeaException (msg : message)
| KeyError (key : string)
| TypeError
| JSONDecodeError
| OSError
| FileNotFoundError
| TransportError (why : string)         (* whatever http.client, ssl or socket raise *)
with message : Type :=
| HttpError (status : Z) (reason : string)   (* "HTTP Error {status}: {reason}" *)
| ErrorAt (where_ : site) (cause : exn)      (* "Error ... {where}: {cause}" *)
| NoModelAvailable (itemNo : string).        (* "No model available for #{itemNo}" *)

Definition is_ikea_exception (e : exn) : bool :=
  match e with IkeaException _ => true | _ => false end.

Inductive result (A : Type) : Type :=
| Ok (a : A)
| Raise (e : exn).
Arguments Ok {A} a.
Arguments Raise {A} e.

Inductive level : Type := DEBUG | INFO | ERROR.

(** One constructor per logging call of the module; the arguments are the
    values interpolated into the message. *)
Inductive event : Type :=
| RequestUrl (url : string) (params : list (string * string))
| RequestHeaders (headers : gmap string string)
| Response (body : string)
| SearchingFor (query : string)
| IsMissing (name : json) (field : string)
| NoModelFor (name : json)
| FoundProduct (name itemNo : json)
| NoProductsFound (query : string)
| GettingPip (itemNo : string)
| DownloadingPipFor (itemNo : string)
| GettingThumbnail (itemNo : string)
| DownloadingThumbnailFor (itemNo : string)
| CheckingExists (itemNo : json)
| GettingModel (itemNo : string)
| DownloadingModelFor (itemNo : string)
| ModelMetadata (rotera_data : json)
| Failed (where_ : site).                 (* log.exception *)

(** ** Dynamic operations of Python on JSON values *)

Module Py.

Fixpoint dict_get {V : Type} (k : string) (d : list (string * V)) : option V :=
  match d with
  | [] => None
  | (k', v) :: d' => if String.eqb k' k then Some v else dict_get k d'
  end.

(** [d[k] = v] on an insertion-ordered dict. *)
Fixpoint dict_set {V : Type} (k : string) (v : V) (d : list (string * V))
  : list (string * V) :=
  match d with
  | [] => [(k, v)]
  | (k', v') :: d' =>
      if String.eqb k' k then (k', v) :: d' else (k', v') :: dict_set k v d'
  end.

Definition is_str (k : string) (v : json) : bool :=
  match v with JStr s => String.eqb s k | _ => false end.

(** [k in v] for a string [k] *)
Definition contains_key (k : string) (v : json) : result bool :=
  match v with
  | JObj kvs => Ok (match dict_get k kvs with Some _ => true | None => false end)
  | JStr s => Ok (PyStr.contains k s)
  | JArr xs => Ok (existsb (is_str k) xs)
  | JNull | JBool _ | JNum _ => Raise TypeError
  end.

(** [v[k]] for a string [k] *)
Definition subscript (v : json) (k : string) : result json :=
  match v with
  | JObj kvs =>
      match dict_get k kvs with
      | Some x => Ok x
      | None => Raise (KeyError k)
      end
  | _ => Raise TypeError
  end.

Fixpoint chars (s : string) : list json :=
  match s with
  | EmptyString => []
  | String c s' => JStr (String c EmptyString) :: chars s'
  end.

Fixpoint keys {V : Type} (seen : list string) (d : list (string * V)) : list string :=
  match d with
  | [] => []
  | (k, _) :: d' =>
      if existsb (String.eqb k) seen then keys seen d' else k :: keys (k :: seen) d'
  end.

(** the elements a [for] loop over [v] visits *)
Definition iterate (v : json) : result (list json) :=
  match v with
  | JArr xs => Ok xs
  | JObj kvs => Ok (map JStr (keys [] kvs))
  | JStr s => Ok (chars s)
  | JNull | JBool _ | JNum _ => Raise TypeError
  end.

(** truth value, as [not v] and [if v] use it *)
Definition truthy (v : json) : bool :=
  match v with
  | JNull => false
  | JBool b => b
  | JNum n => negb (n =? 0)
  | JStr s => negb (String.eqb s "")
  | JArr xs => match xs with [] => false | _ => true end
  | JObj kvs => match kvs with [] => false | _ => true end
  end.

End Py.

(** ** The client object, the cache directory and the network *)

Record client : Type := Client {
  country : string;
  language : string;
  cache_dir : string;
}.

(** [IkeaApiWrapper(country, language)]; [str(pathlib.Path("./cache"))] is
    ["cache"]. *)
Definition __init__ (country language : string) : client :=
  Client country language "cache".

(** [cache_dir / itemNo / leaf], kept as its three parts: the item
    directory is named by the [itemNo] string as it is given, which is what
    pathlib makes of an item number that is a single path component, as
    the digit strings of [compact_item_no] are when they are not empty.
    For other strings (the empty one, ["."], one with a ["/"]) pathlib
    normalises the joined path, and two keys of the model can name one
    file. *)
Abbreviation path := (string * string * string)%type.

(** [str(p)] with the separator of POSIX, for a path whose parts need no
    normalisation. *)
Definition path_str (p : path) : string :=
  p.1.1 +:+ "/" +:+ p.1.2 +:+ "/" +:+ p.2.

(** A call of [_get], as far as it got to [conn.request]: the URL and the
    params are the arguments of [_get] (the connection goes to the host of
    the URL and asks for its path followed by the encoded params), the
    headers are the dict that is sent. *)

Record request : Type := Request {
  url : string;
  params : list (string * string);
  headers : gmap string string;
}.

(** What comes back for a request: a response, or an exception raised
    inside the [try] block of [_get] by urllib, http.client, ssl or the
    socket before a response is read. *)
Inductive reply : Type :=
| Resp (status : Z) (reason : string) (body : string)
| Fails (why : string).

(** The two dicts that Python builds once, when the [def] statements run,
    for the [headers={}] defaults of [_get] and of [_get_json]. *)
Inductive dict_ref : Type := GetDefault | GetJsonDefault.

Record state : Type := State {
  this : client;                             (* the attributes of [self] *)
  get_headers : gmap string string;          (* [_get]'s default dict *)
  get_json_headers : gmap string string;     (* [_get_json]'s default dict *)
  files : gmap path string;                  (* the files under the cache *)
  sent : list request;                       (* the fetches of [_get], oldest first *)
}.

Definition fresh (c : client) : state := State c ∅ ∅ ∅ [].

(** What the code does not decide: the JSON codec of the standard
    library, the servers, the disk, and the order in which the set literal
    of [search] is iterated. *)
Class Env : Type := {
  json_loads : string -> option json;
  json_dumps : json -> string;
  net : list request -> request -> reply;    (* history so far, request *)
  disk_ok : path -> bool;                    (* can the file be written? *)
  required_fields : list string;
  required_fields_perm :
    required_fields ≡ₚ ["itemNo"; "mainImageUrl"; "mainImageAlt"; "pipUrl"];
}.

(** ** State, exceptions and logging *)

Record outcome (A : Type) : Type := Out {
  res : result A;
  st : state;
  log : list (level * event);
}.
Arguments Out {A} res st log.
Arguments res {A} o.
Arguments st {A} o.
Arguments log {A} o.

Definition M (A : Type) : Type := state -> outcome A.

Definition ret {A} (a : A) : M A := fun s => Out (Ok a) s [].
Definition raise {A} (e : exn) : M A := fun s => Out (Raise e) s [].
Definition lift {A} (r : result A) : M A := fun s => Out r s [].

Definition bind {A B} (m : M A) (f : A -> M B) : M B :=
  fun s =>
    let o := m s in
    match res o with
    | Ok a => let o' := f a (st o) in Out (res o') (st o') (log o ++ log o')
    | Raise e => Out (Raise e) (st o) (log o)
    end.

(** [try: m  except Exception as e: h e] *)
Definition try_except {A} (m : M A) (h : exn -> M A) : M A :=
  fun s =>
    let o := m s in
    match res o with
    | Ok a => Out (Ok a) (st o) (log o)
    | Raise e => let o' := h e (st o) in Out (res o') (st o') (log o ++ log o')
    end.

Declare Scope py_scope.
Delimit Scope py_scope with py.
Notation "x <- m ;; k" := (bind m (fun x => k))
  (at level 100, m at next level, right associativity) : py_scope.
Notation "m ;; k" := (bind m (fun _ => k))
  (at level 100, right associativity) : py_scope.
Notation "'try' m 'except' h" := (try_except m h)
  (at level 99, m at level 100, h at level 98) : py_scope.
Local Open Scope py_scope.

Definition tell (l : level) (e : event) : M unit := fun s => Out (Ok tt) s [(l, e)].

Definition get_self : M client := fun s => Out (Ok (this s)) s [].

Definition deref (r : dict_ref) : M (gmap string string) :=
  fun s =>
    Out (Ok (match r with GetDefault => get_headers s | GetJsonDefault => get_json_headers s end))
        s [].

(** [r[k] = v] *)
Definition assign (r : dict_ref) (k v : string) : M unit :=
  fun s =>
    Out (Ok tt)
        (match r with
         | GetDefault =>
             State (this s) (<[k := v]> (get_headers s)) (get_json_headers s) (files s) (sent s)
         | GetJsonDefault =>
             State (this s) (get_headers s) (<[k := v]> (get_json_headers s)) (files s) (sent s)
         end) [].

Fixpoint foldM {A B} (f : A -> B -> M A) (xs : list B) (a : A) : M A :=
  match xs with
  | [] => ret a
  | x :: xs' => a' <- f a x ;; foldM f xs' a'
  end.

Section Operations.
Context {E : Env}.

Definition loads (text : string) : M json :=
  match json_loads text with
  | Some v => ret v
  | None => raise JSONDecodeError
  end.

(** [p.exists()], where the file system answers: an [OSError] other than
    "no such file" (a name that is too long, a directory that cannot be
    searched) is outside the model. *)
Definition path_exists (p : path) : M bool :=
  fun s => Out (Ok (match files s !! p with Some _ => true | None => false end)) s [].

(** [p.read_text()] *)
Definition read_text (p : path) : M string :=
  fun s =>
    match files s !! p with
    | Some text => Out (Ok text) s []
    | None => Out (Raise FileNotFoundError) s []
    end.

(** [p.parent.mkdir(parents=True, exist_ok=True)] and then
    [p.write_text(data)] or [p.write_bytes(data)]: the file is written, or
    an [OSError] is raised before the file is created and the cache is as
    before.  A write that fails part-way and leaves a shorter file is
    outside the model. *)
Definition write (p : path) (data : string) : M unit :=
  fun s =>
    if disk_ok p
    then Out (Ok tt)
             (State (this s) (get_headers s) (get_json_headers s)
                    (<[p := data]> (files s)) (sent s)) []
    else Out (Raise OSError) s [].

(** [conn.request("GET", ...)] followed by [conn.getresponse()] *)
Definition http_get (r : request) : M reply :=
  fun s =>
    Out (Ok (net (sent s) r))
        (State (this s) (get_headers s) (get_json_headers s) (files s) (sent s ++ [r])) [].

Definition CLIENT_ID : string := "4863e7d2-1428-4324-890b-ae5dede24fc6".
Definition USER_AGENT : string :=
  "Blender IKEA Browser ( https://github.com/shish/blender-ikea-browser/ )".

Definition _get (url : string) (params : list (string * string))
           (headers : dict_ref) : M string :=
  shown <- deref headers ;;
  tell DEBUG (RequestUrl url params) ;;
  tell DEBUG (RequestHeaders shown) ;;
  (if contains "web-api.ikea.com" url
   then assign headers "X-Client-Id" CLIENT_ID ;;
        assign headers "User-Agent" USER_AGENT
   else ret tt) ;;
  try
    (hs <- deref headers ;;
     response <- http_get (Request url params hs) ;;
     match response with
     | Fails why => raise (TransportError why)
     | Resp status reason data =>
         if (status <? 200) || (status >=? 300)
         then raise (IkeaException (HttpError status reason))
         else ret data
     end)
  except (fun e =>
    tell ERROR (Failed (Fetching url)) ;;
    raise (IkeaException (ErrorAt (Fetching url) e))).

Definition _get_json (url : string) (params : list (string * string))
           (headers : dict_ref) : M json :=
  resp <- _get url params headers ;;
  tell DEBUG (Response resp) ;;
  loads resp.

(** *** The cache-first operations *)

Definition get_pip (itemNo : string) : M json :=
  tell DEBUG (GettingPip itemNo) ;;
  self <- get_self ;;
  let cache_path : path := (cache_dir self, itemNo, "pip.json") in
  hit <- path_exists cache_path ;;
  (if negb hit then
     try
       (tell INFO (DownloadingPipFor itemNo) ;;
        let url := "https://www.ikea.com/" +:+ country self +:+ "/" +:+ language self
                   +:+ "/products/" +:+ slice_from 5 itemNo +:+ "/" +:+ itemNo +:+ ".json" in
        data <- _get_json url [] GetJsonDefault ;;
        write cache_path (json_dumps data))
     except (fun e =>
       tell ERROR (Failed (DownloadingPip itemNo)) ;;
       raise (IkeaException (ErrorAt (DownloadingPip itemNo) e)))
   else ret tt) ;;
  text <- read_text cache_path ;;
  loads text.

Definition get_thumbnail (itemNo : string) (url : string) : M string :=
  tell DEBUG (GettingThumbnail itemNo) ;;
  self <- get_self ;;
  let cache_path : path := (cache_dir self, itemNo, "thumbnail.jpg") in
  hit <- path_exists cache_path ;;
  (if negb hit then
     try
       (tell INFO (DownloadingThumbnailFor itemNo) ;;
        data <- _get url [] GetDefault ;;
        write cache_path data)
     except (fun e =>
       tell ERROR (Failed (DownloadingThumbnail itemNo)) ;;
       raise (IkeaException (ErrorAt (DownloadingThumbnail itemNo) e)))
   else ret tt) ;;
  ret (path_str cache_path).

Definition exists_url (self : client) (itemNo : string) : string :=
  "https://web-api.ikea.com/" +:+ country self +:+ "/" +:+ language self
  +:+ "/rotera/data/exists/" +:+ itemNo +:+ "/".

Definition get_exists (itemNo : string) : M json :=
  tell DEBUG (CheckingExists (JStr itemNo)) ;;
  self <- get_self ;;
  let cache_path : path := (cache_dir self, itemNo, "exists.json") in
  hit <- path_exists cache_path ;;
  (if negb hit then
     try
       (data <- _get (exists_url self itemNo) [] GetDefault ;;
        write cache_path data)
     except (fun e =>
       tell ERROR (Failed (CheckingExistence itemNo)) ;;
       raise (IkeaException (ErrorAt (CheckingExistence itemNo) e)))
   else ret tt) ;;
  text <- read_text cache_path ;;
  parsed <- loads text ;;
  lift (Py.subscript parsed "exists").

Definition model_url (self : client) (itemNo : string) : string :=
  "https://web-api.ikea.com/" +:+ country self +:+ "/" +:+ language self
  +:+ "/rotera/data/model/" +:+ itemNo +:+ "/".

Definition get_model (itemNo : string) : M string :=
  tell DEBUG (GettingModel itemNo) ;;
  self <- get_self ;;
  let cache_path : path := (cache_dir self, itemNo, "model.glb") in
  hit <- path_exists cache_path ;;
  (if negb hit then
     tell INFO (DownloadingModelFor itemNo) ;;
     try
       (found <- get_exists itemNo ;;
        (if negb (Py.truthy found)
         then raise (IkeaException (NoModelAvailable itemNo))
         else ret tt) ;;
        rotera_data <- _get_json (model_url self itemNo) [] GetJsonDefault ;;
        tell DEBUG (ModelMetadata rotera_data) ;;
        modelUrl <- lift (Py.subscript rotera_data "modelUrl") ;;
        data <- match modelUrl with
                | JStr u => _get u [] GetDefault
                | _ => raise TypeError      (* [url + "?"] in [_get] *)
                end ;;
        write cache_path data)
     except (fun e =>
       tell ERROR (Failed (DownloadingModel itemNo)) ;;
       raise (IkeaException (ErrorAt (DownloadingModel itemNo) e)))
   else ret tt) ;;
  ret (path_str cache_path).

(** *** Search *)

Definition search_url (self : client) : string :=
  "https://sik.search.blue.cdtapps.com/" +:+ country self +:+ "/" +:+ language self
  +:+ "/search-result-page".

Definition search_params (query : string) : list (string * string) :=
  let params :=
    [("types", "PRODUCT"); ("q", query); ("size", "24"); ("c", "sr"); ("v", "20210322")] in
  if is_item_no query
  then Py.dict_set "size" "1" params
  else Py.dict_set "subcategories-style" "tree-navigation"
         (Py.dict_set "autocorrect" "true" params).

(** The inner loop [for field in {...}]: the new value of [valid]. *)
Definition check_field (p : json) (valid : bool) (field : string) : M bool :=
  present <- lift (Py.contains_key field p) ;;
  if negb present then
    name <- lift (Py.subscript p "name") ;;
    tell INFO (IsMissing name field) ;;
    ret false
  else ret valid.

(** [self.get_exists(v)] for a value taken out of the response: joining a
    path with anything but a string is a [TypeError]. *)
Definition get_exists_of (v : json) : M json :=
  match v with
  | JStr itemNo => get_exists itemNo
  | _ => tell DEBUG (CheckingExists v) ;; raise TypeError
  end.

(** One turn of the loop over the response items. *)
Definition search_item (results : list json) (i : json) : M (list json) :=
  p <- lift (Py.subscript i "product") ;;
  valid <- foldM (check_field p) required_fields true ;;
  valid <- (if valid then
              itemNo <- lift (Py.subscript p "itemNo") ;;
              found <- get_exists_of itemNo ;;
              if negb (Py.truthy found) then
                name <- lift (Py.subscript p "name") ;;
                tell INFO (NoModelFor name) ;;
                ret false
              else ret valid
            else ret valid) ;;
  if valid then
    itemNo <- lift (Py.subscript p "itemNo") ;;
    name <- lift (Py.subscript p "name") ;;
    mainImageUrl <- lift (Py.subscript p "mainImageUrl") ;;
    mainImageAlt <- lift (Py.subscript p "mainImageAlt") ;;
    pipUrl <- lift (Py.subscript p "pipUrl") ;;
    tell DEBUG (FoundProduct name itemNo) ;;
    ret (results ++ [JObj [("itemNo", itemNo); ("name", name);
                           ("mainImageUrl", mainImageUrl);
                           ("mainImageAlt", mainImageAlt);
                           ("pipUrl", pipUrl)]])%list
  else ret results.

Definition search (query : string) : M (list json) :=
  tell DEBUG (SearchingFor query) ;;
  self <- get_self ;;
  search_results <-
    (try _get_json (search_url self) (search_params query) GetJsonDefault
     except (fun e =>
       tell ERROR (Failed (Searching query)) ;;
       raise (IkeaException (ErrorAt (Searching query) e)))) ;;
  page <- lift (Py.subscript search_results "searchResultPage") ;;
  products <- lift (Py.subscript page "products") ;;
  main <- lift (Py.subscript products "main") ;;
  items <- lift (Py.subscript main "items") ;;
  items <- lift (Py.iterate items) ;;
  results <- foldM search_item items [] ;;
  (match results with
   | [] => tell INFO (NoProductsFound query)
   | _ => ret tt
   end) ;;
  ret results.

End Operations.

(** ** The operations of the client, as one type *)

Inductive operation : Type :=
| IsItemNo (itemNo : string)
| CompactItemNo (itemNo : string)
| FormatItemNo (itemNo : string)
| Search (query : string)
| GetPip (itemNo : string)
| GetThumbnail (itemNo url : string)
| GetExists (itemNo : string)
| GetModel (itemNo : string).

Inductive value : Type :=
| Flag (b : bool)
| Text (s : string)
| Doc (v : json)
| Docs (vs : list json).

Definition call {E : Env} (op : operation) : M value :=
  match op with
  | IsItemNo itemNo => ret (Flag (is_item_no itemNo))
  | CompactItemNo itemNo => ret (Text (compact_item_no itemNo))
  | FormatItemNo itemNo => ret (Text (format_item_no itemNo))
  | Search query => vs <- search query ;; ret (Docs vs)
  | GetPip itemNo => v <- get_pip itemNo ;; ret (Doc v)
  | GetThumbnail itemNo url => p <- get_thumbnail itemNo url ;; ret (Text p)
  | GetExists itemNo => v <- get_exists itemNo ;; ret (Doc v)
  | GetModel itemNo => p <- get_model itemNo ;; ret (Text p)
  end.

(** The four operations that consult the cache before the network. *)
Definition cache_first (op : operation) : bool :=
  match op with
  | GetPip _ | GetThumbnail _ _ | GetExists _ | GetModel _ => true
  | _ => false
  end.

(** ** Vocabulary of the statements *)

(** [wp m s Q]: running [m] from [s] ends in a result, a state and a log
    that satisfy [Q]. *)
Definition wp {A} (m : M A) (s : state)
           (Q : result A -> state -> list (level * event) -> Prop) : Prop :=
  Q (res (m s)) (st (m s)) (log (m s)).

(** [keeps R m]: every run of [m] relates the state it starts from to the
    state it ends in. *)
Definition keeps (R : relation state) {A} (m : M A) : Prop :=
  forall s, R s (st (m s)).

Definition same_client : relation state :=
  fun s s' => this s' = this s.

Definition extends : relation state :=
  fun s s' => exists new, sent s' = sent s ++ new.

(** [grown n s s']: the client is the same and at most [n] requests were
    sent between [s] and [s']. *)
Definition grown (n : nat) (s s' : state) : Prop :=
  this s' = this s /\ (length (sent s') <= length (sent s) + n)%nat.

(** The paths of the four cache files of an item. *)
Definition pip_path (s : state) (itemNo : string) : path :=
  (cache_dir (this s), itemNo, "pip.json").
Definition thumbnail_path (s : state) (itemNo : string) : path :=
  (cache_dir (this s), itemNo, "thumbnail.jpg").
Definition exists_path (s : state) (itemNo : string) : path :=
  (cache_dir (this s), itemNo, "exists.json").
Definition model_path (s : state) (itemNo : string) : path :=
  (cache_dir (this s), itemNo, "model.glb").

(** [_get] in closed form: the headers it leaves in the dict it was given,
    the request it sends, the state it ends in and what it returns. *)
Definition deref_in (h : dict_ref) (s : state) : gmap string string :=
  match h with
  | GetDefault => get_headers s
  | GetJsonDefault => get_json_headers s
  end.

Definition stamped (url : string) (hs : gmap string string) : gmap string string :=
  if contains "web-api.ikea.com" url
  then <["User-Agent" := USER_AGENT]> (<["X-Client-Id" := CLIENT_ID]> hs)
  else hs.

Definition request_of (url : string) (params : list (string * string))
           (h : dict_ref) (s : state) : request :=
  Request url params (stamped url (deref_in h s)).

Definition after_get (url : string) (params : list (string * string))
           (h : dict_ref) (s : state) : state :=
  let hs := stamped url (deref_in h s) in
  let sent' := sent s ++ [request_of url params h s] in
  match h with
  | GetDefault => State (this s) hs (get_json_headers s) (files s) sent'
  | GetJsonDefault => State (this s) (get_headers s) hs (files s) sent'
  end.

Definition fetched {E : Env} (url : string) (params : list (string * string))
           (h : dict_ref) (s : state) : result string :=
  match net (sent s) (request_of url params h s) with
  | Fails why => Raise (IkeaException (ErrorAt (Fetching url) (TransportError why)))
  | Resp status reason data =>
      if (status <? 200) || (status >=? 300)
      then Raise (IkeaException
                    (ErrorAt (Fetching url) (IkeaException (HttpError status reason))))
      else Ok data
  end.

Definition decoded {E : Env} (text : string) : result json :=
  match json_loads text with
  | Some v => Ok v
  | None => Raise JSONDecodeError
  end.

Definition and_then {A B} (r : result A) (f : A -> result B) : result B :=
  match r with
  | Ok a => f a
  | Raise e => Raise e
  end.

(** Which of the fields of a product [search] does not find. *)
Definition missing (kvs : list (string * json)) (field : string) : bool :=
  match Py.dict_get field kvs with
  | Some _ => false
  | None => true
  end.

(** A request carries the two headers of the web API. *)
Definition carries_web_api_headers (r : request) : Prop :=
  headers r !! "X-Client-Id" = Some CLIENT_ID /\
  headers r !! "User-Agent" = Some USER_AGENT.

(** Two calls in a row: at most one request in all, and the same result. *)
Definition fetched_once {E : Env} (op : operation) (s : state) : Prop :=
  let first := call op s in
  let second := call op (st first) in
  (length (sent (st second)) <= length (sent s) + 1)%nat /\
  res second = res first.

(** The requests the first call of a cache-first operation can need. *)
Definition fetches (op : operation) : nat :=
  match op with
  | GetModel _ => 3       (* existence check, model metadata, binary *)
  | _ => 1
  end.

(** Every exception that leaves an operation is the client's own. *)
Definition uniform_errors {E : Env} (op : operation) (s : state) : Prop :=
  forall e, res (call op s) = Raise e -> is_ikea_exception e = true.

(** The digits of a string, in order. *)
Fixpoint digits_of (s : string) : string :=
  match s with
  | EmptyString => EmptyString
  | String c s' => if is_digit c then String c (digits_of s') else digits_of s'
  end.

(** Item identifiers as the data model describes them: eight digits in
    groups of 3, 3 and 2, each of the two dots optional. *)
Fixpoint all_digits (s : string) : bool :=
  match s with
  | EmptyString => true
  | String c s' => is_digit c && all_digits s'
  end.

Definition group (n : nat) (s : string) : Prop :=
  String.length s = n /\ all_digits s = true.

Definition optional_dot (s : string) : Prop := s = "" \/ s = ".".

Definition item_no_form (s : string) : Prop :=
  exists a p b q c,
    s = a +:+ p +:+ b +:+ q +:+ c /\
    group 3 a /\ optional_dot p /\ group 3 b /\ optional_dot q /\ group 2 c.

Definition with_newline (s : string) : string := s +:+ String newline "".

(** [s] without its last character *)
Fixpoint chop (s : string) : string :=
  match s with
  | EmptyString => EmptyString
  | String c EmptyString => EmptyString
  | String c s' => String c (chop s')
  end.

(** ** Sample environments

    Concrete servers, disk and codec on which the operations can be run.
    [Sample.dumps] writes a value the way [json.dumps] does for documents
    whose strings need no escaping; [Sample.loads_among] decodes exactly
    the texts of a given list of documents and rejects every other text. *)

Module Sample.

Definition quote : string := String "034"%char EmptyString.

Fixpoint digits_of_pos (fuel : nat) (n : N) (acc : string) : string :=
  match fuel with
  | O => acc
  | S fuel' =>
      let acc' := String (ascii_of_N (48 + N.modulo n 10)) acc in
      if (n <? 10)%N then acc' else digits_of_pos fuel' (N.div n 10) acc'
  end.

Definition dump_int (n : Z) : string :=
  match n with
  | Z0 => "0"
  | Zpos p => digits_of_pos (Pos.to_nat p) (Npos p) ""
  | Zneg p => "-" +:+ digits_of_pos (Pos.to_nat p) (Npos p) ""
  end.

Fixpoint dumps (v : json) : string :=
  match v with
  | JNull => "null"
  | JBool true => "true"
  | JBool false => "false"
  | JNum n => dump_int n
  | JStr s => quote +:+ s +:+ quote
  | JArr xs =>
      "[" +:+ (fix elems (xs : list json) : string :=
                 match xs with
                 | [] => ""
                 | [x] => dumps x
                 | x :: xs' => dumps x +:+ ", " +:+ elems xs'
                 end) xs +:+ "]"
  | JObj kvs =>
      "{" +:+ (fix members (kvs : list (string * json)) : string :=
                 match kvs with
                 | [] => ""
                 | [(k, x)] => quote +:+ k +:+ quote +:+ ": " +:+ dumps x
                 | (k, x) :: kvs' =>
                     quote +:+ k +:+ quote +:+ ": " +:+ dumps x +:+ ", " +:+ members kvs'
                 end) kvs +:+ "}"
  end.

Definition loads_among (docs : list json) (text : string) : option json :=
  find (fun v => String.eqb (dumps v) text) docs.

Definition product (fields : list (string * json)) : json :=
  JObj [("product", JObj fields)].

Definition search_page (items : list json) : json :=
  JObj [("searchResultPage",
         JObj [("products", JObj [("main", JObj [("items", JArr items)])])])].

Definition model_metadata : json :=
  JObj [("modelUrl", JStr "https://cdn.example.com/billy.glb")].

Definition pip_document : json :=
  JObj [("name", JStr "BILLY"); ("id", JNum 12345678)].

(** A server that answers every request with [status]; the body depends
    on the endpoint. *)
Definition serve (status : Z) (exists_body : string) (page : json)
           (history : list request) (r : request) : reply :=
  let body :=
    if contains "/rotera/data/exists/" (url r) then exists_body
    else if contains "/rotera/data/model/" (url r) then dumps model_metadata
    else if contains "/search-result-page" (url r) then dumps page
    else if contains "/products/" (url r) then dumps pip_document
    else "binary" in
  Resp status (if status =? 200 then "OK" else "Error") body.

Definition env (status : Z) (exists_body : string) (page : json) : Env :=
  {| json_loads :=
       loads_among [JObj [("exists", JBool true)]; JObj [("exists", JBool false)];
                    JObj []; model_metadata; pip_document; page];
     json_dumps := dumps;
     net := serve status exists_body page;
     disk_ok := fun _ => true;
     required_fields := ["itemNo"; "mainImageUrl"; "mainImageAlt"; "pipUrl"];
     required_fields_perm := Permutation_refl _ |}.

Definition with_model : string := dumps (JObj [("exists", JBool true)]).
Definition without_model : string := dumps (JObj [("exists", JBool false)]).

Definition billy : json :=
  product [("itemNo", JStr "12345678"); ("name", JStr "BILLY");
           ("mainImageUrl", JStr "https://www.ikea.com/billy.jpg");
           ("mainImageAlt", JStr "BILLY bookcase");
           ("pipUrl", JStr "https://www.ikea.com/ie/en/p/billy-12345678/")].

(** no [mainImageAlt] and no [name] *)
Definition nameless : json :=
  product [("itemNo", JStr "87654321");
           ("mainImageUrl", JStr "https://www.ikea.com/x.jpg");
           ("pipUrl", JStr "https://www.ikea.com/ie/en/p/x-87654321/")].

(** no [mainImageAlt] *)
Definition no_alt : json :=
  product [("itemNo", JStr "87654321"); ("name", JStr "KALLAX");
           ("mainImageUrl", JStr "https://www.ikea.com/x.jpg");
           ("pipUrl", JStr "https://www.ikea.com/ie/en/p/x-87654321/")].

Definition ie : state := fresh (__init__ "ie" "en").

(** a client whose cache holds a [pip.json] that is not JSON *)
Definition corrupt_pip : state :=
  State (__init__ "ie" "en") ∅ ∅ {[ ("cache", "12345678", "pip.json") := "<html>" ]} [].

End Sample.

(** ** Further vocabulary: sessions, the cache as a whole, search results *)

(** The cache file a cache-first operation stands for. *)
Definition asset_path (op : operation) (s : state) : option path :=
  match op with
  | GetPip i => Some (pip_path s i)
  | GetThumbnail i _ => Some (thumbnail_path s i)
  | GetExists i => Some (exists_path s i)
  | GetModel i => Some (model_path s i)
  | _ => None
  end.


(** An item number in compact form that names a directory: digits, and at
    least one. *)
Definition is_compact (itemNo : string) : bool :=
  all_digits itemNo && negb (String.eqb itemNo "").

(** The names of the four files the client keeps for an item. *)
Definition cache_leaves : list string :=
  ["pip.json"; "thumbnail.jpg"; "exists.json"; "model.glb"].

(** One of the four files of an item in compact form, in the cache of the
    client. *)
Definition cache_file (s : state) (p : path) : bool :=
  String.eqb p.1.1 (cache_dir (this s)) && is_compact p.1.2
  && existsb (String.eqb p.2) cache_leaves.

(** The item a cache-first operation is called for. *)
Definition item_of (op : operation) : option string :=
  match op with
  | GetPip i | GetThumbnail i _ | GetExists i | GetModel i => Some i
  | _ => None
  end.

(** The files a cache-first operation may write. *)
Definition own (op : operation) (s : state) (p : path) : Prop :=
  match op with
  | GetPip i => p = pip_path s i
  | GetThumbnail i _ => p = thumbnail_path s i
  | GetExists i => p = exists_path s i
  | GetModel i => p = exists_path s i \/ p = model_path s i
  | _ => False
  end.

(** [touches P s s']: the files outside [P] are the same in [s] and [s']. *)
Definition touches (P : path -> Prop) : relation state :=
  fun s s' => forall p, ~ P p -> files s' !! p = files s !! p.

(** [cache_grows s s']: every file of [s] is in [s'] with the same content. *)
Definition cache_grows : relation state :=
  fun s s' => files s ⊆ files s'.

(** A dict holds nothing but the two headers of the web API. *)
Definition only_web_api_headers (hs : gmap string string) : Prop :=
  forall k v, hs !! k = Some v ->
    (k = "X-Client-Id" /\ v = CLIENT_ID) \/ (k = "User-Agent" /\ v = USER_AGENT).

Definition well_stamped (r : request) : Prop :=
  only_web_api_headers (headers r) /\
  (contains "web-api.ikea.com" (url r) = true -> carries_web_api_headers r).

Definition stamps_well : relation state :=
  fun s s' =>
    only_web_api_headers (get_headers s) ->
    only_web_api_headers (get_json_headers s) ->
    only_web_api_headers (get_headers s') /\
    only_web_api_headers (get_json_headers s') /\
    exists new, sent s' = sent s ++ new /\ Forall well_stamped new.

(** A caller that makes one call after the other on the same client, going
    on after a call that raised. *)
Definition session {E : Env} (ops : list operation) (s : state) : state :=
  fold_left (fun s op => st (call op s)) ops s.



(** The dict [search] returns for a response item: the five fields of its
    product, when they are all there. *)
Definition projection (item : json) : option json :=
  match Py.subscript item "product" with
  | Ok p =>
      match Py.subscript p "itemNo", Py.subscript p "name",
            Py.subscript p "mainImageUrl", Py.subscript p "mainImageAlt",
            Py.subscript p "pipUrl" with
      | Ok itemNo, Ok name, Ok mainImageUrl, Ok mainImageAlt, Ok pipUrl =>
          Some (JObj [("itemNo", itemNo); ("name", name);
                      ("mainImageUrl", mainImageUrl);
                      ("mainImageAlt", mainImageAlt);
                      ("pipUrl", pipUrl)])
      | _, _, _, _, _ => None
      end
  | Raise _ => None
  end.

(** The items of a search response:
    [doc["searchResultPage"]["products"]["main"]["items"]], as a loop sees
    them. *)
Definition items_of (doc : json) : result (list json) :=
  and_then (Py.subscript doc "searchResultPage") (fun page =>
  and_then (Py.subscript page "products") (fun products =>
  and_then (Py.subscript products "main") (fun main =>
  and_then (Py.subscript main "items") Py.iterate))).

(** ** The command line ([if __name__ == "__main__"])

    [args] is what [parser.parse_args()] returns; [disk] is the cache the
    process finds.  What [print] receives is kept as a value:
    [PrintedJson v] stands for the text [json.dumps(v, indent=4)]. *)

Inductive command : Type :=
| CmdSearch (query : list string)
| CmdMetadata (itemNo : string)
| CmdModel (itemNo : string)
| NoCommand.

Record cli_args : Type := CliArgs {
  arg_country : string;
  arg_language : string;
  arg_verbose : bool;
  arg_cmd : command;
}.

Inductive printed : Type :=
| PrintedJson (v : json)
| PrintedText (s : string).

(** [sep.join(ws)] *)
Fixpoint join (sep : string) (ws : list string) : string :=
  match ws with
  | [] => ""
  | [w] => w
  | w :: ws' => w +:+ sep +:+ join sep ws'
  end.

Definition main {E : Env} (args : cli_args) (disk : gmap path string) : outcome printed :=
  let ikea := State (__init__ (arg_country args) (arg_language args)) ∅ ∅ disk [] in
  match arg_cmd args with
  | CmdSearch query =>
      (vs <- search (join " " query) ;; ret (PrintedJson (JArr vs))) ikea
  | CmdMetadata itemNo =>
      (v <- get_pip (compact_item_no itemNo) ;; ret (PrintedJson v)) ikea
  | CmdModel itemNo =>
      (p <- get_model (compact_item_no itemNo) ;; ret (PrintedText p)) ikea
  | NoCommand => ret (PrintedText "No command specified") ikea
  end.

(** The same arguments with another item number. *)
Definition with_item (args : cli_args) (itemNo : string) : cli_args :=
  CliArgs (arg_country args) (arg_language args) (arg_verbose args)
          match arg_cmd args with
          | CmdMetadata _ => CmdMetadata itemNo
          | CmdModel _ => CmdModel itemNo
          | c => c
          end.

(** ** Sample runs *)

Module Runs.

(** every server answers 200; the search finds BILLY and an item without
    [mainImageAlt] *)
Definition online : Env :=
  Sample.env 200 Sample.with_model (Sample.search_page [Sample.billy; Sample.no_alt]).

(** every server answers 500 *)
Definition offline : Env :=
  Sample.env 500 Sample.with_model (Sample.search_page []).

(** the search finds nothing *)
Definition nothing_found : Env :=
  Sample.env 200 Sample.with_model (Sample.search_page []).

Definition billy_result : json :=
  JObj [("itemNo", JStr "12345678"); ("name", JStr "BILLY");
        ("mainImageUrl", JStr "https://www.ikea.com/billy.jpg");
        ("mainImageAlt", JStr "BILLY bookcase");
        ("pipUrl", JStr "https://www.ikea.com/ie/en/p/billy-12345678/")].

Definition billy_fields : list (string * json) :=
  [("itemNo", JStr "12345678"); ("name", JStr "BILLY");
   ("mainImageUrl", JStr "https://www.ikea.com/billy.jpg");
   ("mainImageAlt", JStr "BILLY bookcase");
   ("pipUrl", JStr "https://www.ikea.com/ie/en/p/billy-12345678/")].

(** [python ikea_lib.py model 123.456.78] *)
Definition model_command : cli_args :=
  CliArgs "ie" "en" false (CmdModel "123.456.78").

(** the exception an outcome carries *)
Definition raised {A} (o : outcome A) : exn :=
  match res o with
  | Raise e => e
  | Ok _ => TypeError
  end.

End Runs.

(** * Properties *)

(** ** The string helpers *)

Lemma compact_item_no_digits (s : string) : compact_item_no s = digits_of s.
Proof.
  unfold compact_item_no, not_0_9.
  induction s as [|c s IH]; cbn [re_sub_cls digits_of]; [reflexivity|].
  destruct (is_digit c); cbn [negb]; rewrite IH; reflexivity.
Qed.

Lemma all_digits_digits_of (s : string) : all_digits (digits_of s) = true.
Proof.
  induction s as [|c s IH]; cbn [digits_of all_digits]; [reflexivity|].
  destruct (is_digit c) eqn:Hc; [|exact IH].
  cbn [all_digits]. now rewrite Hc, IH.
Qed.

Lemma digits_of_all_digits (s : string) : all_digits s = true -> digits_of s = s.
Proof.
  induction s as [|c s IH]; cbn [digits_of all_digits]; [reflexivity|].
  intros [Hc Hs]%andb_prop. rewrite Hc, (IH Hs). reflexivity.
Qed.

Lemma compact_item_no_idempotent (s : string) :
  compact_item_no (compact_item_no s) = compact_item_no s.
Proof.
  rewrite !compact_item_no_digits.
  apply digits_of_all_digits, all_digits_digits_of.
Qed.

Lemma slice_get (lo hi : nat) (s : string) (k : nat) :
  String.get k (slice lo hi s) =
  if (k <? hi - lo)%nat then String.get (k + lo) s else None.
Proof.
  unfold slice. destruct (Nat.ltb_spec k (hi - lo)).
  - now apply substring_correct1.
  - now apply substring_correct2.
Qed.

(** C8. For every valid item identifier [x], formatting the compacted
    identifier gives what formatting [x] gives, and ["12345678"] is
    formatted as ["123.456.78"]. *)
Theorem format_item_no_after_compact (x : string) :
  is_item_no x = true ->
  format_item_no (compact_item_no x) = format_item_no x /\
  format_item_no "12345678" = "123.456.78".
Proof.
  intros _. split; [|reflexivity].
  unfold format_item_no. now rewrite compact_item_no_idempotent.
Qed.

Lemma format_item_no_after_compact_witness :
  is_item_no "123.456.78" = true /\
  format_item_no (compact_item_no "123.456.78") = format_item_no "123.456.78" /\
  format_item_no "12345678" = "123.456.78".
Proof.
  split; [reflexivity|]. apply (format_item_no_after_compact "123.456.78"). reflexivity.
Defined.


(** ** What [is_item_no] accepts *)

Lemma at_eol_inv (rest : string) :
  at_eol rest = true -> rest = "" \/ rest = String newline "".
Proof.
  destruct rest as [|c [|c' rest]]; cbn [at_eol]; auto; [|discriminate].
  intros H%Ascii.eqb_eq. subst. auto.
Qed.

Ltac use_digits :=
  repeat match goal with
         | H : is_digit _ = true |- _ => rewrite H
         end.

Ltac form p q :=
  eexists (String _ (String _ (String _ ""))), p,
          (String _ (String _ (String _ ""))), q,
          (String _ (String _ ""));
  split; [reflexivity|];
  repeat split; cbn [all_digits String.length]; use_digits;
  first [reflexivity | left; reflexivity | right; reflexivity].

Ltac forms :=
  first [form "" "" | form "." "" | form "" "." | form "." "."].

(** The three examples of the data model. *)
Lemma is_item_no_examples :
  is_item_no "123.456.78" = true /\
  is_item_no "12345678" = true /\
  is_item_no "1234567" = false.
Proof. repeat split; reflexivity. Qed.

(** What [is_item_no] accepts: the strings of the 3-3-2 form, and those
    strings followed by one newline. *)
Lemma is_item_no_sound (s : string) :
  is_item_no s = true ->
  exists t, (s = t \/ s = with_newline t) /\ item_no_form t.
Proof.
  unfold is_item_no, re_match, item_no_pattern, d, lit. cbn [walk andb].
  intros H.
  repeat match goal with
         | H : _ && _ = true |- _ => apply andb_prop in H; destruct H
         | H : _ || _ = true |- _ => apply orb_prop in H; destruct H
         | H : match ?x with EmptyString => false | String _ _ => _ end = true |- _ =>
             destruct x; [discriminate H|]
         | H : Ascii.eqb dot _ = true |- _ => apply Ascii.eqb_eq in H; subst
         | H : at_eol _ = true |- _ => apply at_eol_inv in H; destruct H; subst
         end;
    match goal with
    | |- exists t, (?s = t \/ _) /\ _ =>
        first [ exists s; split; [left; reflexivity|]; forms
              | exists (chop s); split; [right; reflexivity|]; cbn [chop]; forms ]
    end.
Qed.

Lemma is_item_no_complete (t : string) :
  item_no_form t -> is_item_no t = true /\ is_item_no (with_newline t) = true.
Proof.
  intros (a & p & b & q & c & -> & [La Da] & Hp & [Lb Db] & Hq & [Lc Dc]).
  destruct a as [|a1 [|a2 [|a3 [|]]]]; try discriminate La.
  destruct b as [|b1 [|b2 [|b3 [|]]]]; try discriminate Lb.
  destruct c as [|c1 [|c2 [|]]]; try discriminate Lc.
  cbn [all_digits] in Da, Db, Dc.
  repeat match goal with
         | H : _ && _ = true |- _ => apply andb_prop in H; destruct H
         end.
  unfold is_item_no, re_match, item_no_pattern, d, lit, with_newline.
  destruct Hp as [-> | ->], Hq as [-> | ->];
    cbv [String.append]; cbn [walk andb]; use_digits; cbn [andb orb at_eol];
    rewrite ?orb_true_r; split; reflexivity.
Qed.

Lemma is_item_no_iff (s : string) :
  is_item_no s = true <->
  exists t, (s = t \/ s = with_newline t) /\ item_no_form t.
Proof.
  split; [apply is_item_no_sound|].
  intros (t & [-> | ->] & Ht); now apply is_item_no_complete.
Qed.

Lemma item_no_form_all (s : string) :
  item_no_form s -> forallb (fun c => is_digit c || Ascii.eqb c dot) (list_ascii_of_string s) = true.
Proof.
  intros (a & p & b & q & c & -> & [La Da] & Hp & [Lb Db] & Hq & [Lc Dc]).
  destruct a as [|a1 [|a2 [|a3 [|]]]]; try discriminate La.
  destruct b as [|b1 [|b2 [|b3 [|]]]]; try discriminate Lb.
  destruct c as [|c1 [|c2 [|]]]; try discriminate Lc.
  cbn [all_digits] in Da, Db, Dc.
  repeat match goal with
         | H : _ && _ = true |- _ => apply andb_prop in H; destruct H
         end.
  destruct Hp as [-> | ->], Hq as [-> | ->];
    cbv [String.append]; cbn [list_ascii_of_string forallb]; use_digits; reflexivity.
Qed.

(** C7. [is_item_no] is claimed to be true exactly on the full matches of
    the pattern.  Evaluated on ["12345678"] followed by a newline it
    returns true, although that string is not of the 3-3-2 form: [$] also
    holds just before a final newline. *)
Theorem is_item_no_accepts_trailing_newline :
  is_item_no (with_newline "12345678") = true /\
  ~ item_no_form (with_newline "12345678").
Proof.
  split; [reflexivity|].
  intros H%item_no_form_all. discriminate H.
Qed.

(** ** Frame rules: relations that every step of a program keeps *)

Section Frames.
Context {E : Env}.
Context (R : relation state) `{!PreOrder R}.

Lemma keeps_still {A} (m : M A) : (forall s, st (m s) = s) -> keeps R m.
Proof. intros H s. rewrite H. reflexivity. Qed.

Lemma keeps_ret {A} (a : A) : keeps R (ret a).
Proof. now apply keeps_still. Qed.

Lemma keeps_raise {A} (e : exn) : keeps R (@raise A e).
Proof. now apply keeps_still. Qed.

Lemma keeps_lift {A} (r : result A) : keeps R (lift r).
Proof. now apply keeps_still. Qed.

Lemma keeps_tell (l : level) (e : event) : keeps R (tell l e).
Proof. now apply keeps_still. Qed.

Lemma keeps_get_self : keeps R get_self.
Proof. now apply keeps_still. Qed.

Lemma keeps_deref (r : dict_ref) : keeps R (deref r).
Proof. now apply keeps_still. Qed.

Lemma keeps_path_exists (p : path) : keeps R (path_exists p).
Proof. now apply keeps_still. Qed.

Lemma keeps_read_text (p : path) : keeps R (read_text p).
Proof.
  apply keeps_still. intros s. unfold read_text. now destruct (files s !! p).
Qed.

Lemma keeps_loads (text : string) : keeps R (loads text).
Proof.
  apply keeps_still. intros s. unfold loads. now destruct (json_loads text).
Qed.

Lemma keeps_bind {A B} (m : M A) (f : A -> M B) :
  keeps R m -> (forall a, keeps R (f a)) -> keeps R (bind m f).
Proof.
  intros Hm Hf s. unfold bind. destruct (res (m s)) eqn:Hr; cbn [st].
  - transitivity (st (m s)); [apply Hm | apply Hf].
  - apply Hm.
Qed.

Lemma keeps_try {A} (m : M A) (h : exn -> M A) :
  keeps R m -> (forall e, keeps R (h e)) -> keeps R (try_except m h).
Proof.
  intros Hm Hh s. unfold try_except. destruct (res (m s)) eqn:Hr; cbn [st].
  - apply Hm.
  - transitivity (st (m s)); [apply Hm | apply Hh].
Qed.

Lemma keeps_foldM {A B} (f : A -> B -> M A) (xs : list B) :
  (forall a x, keeps R (f a x)) -> forall a, keeps R (foldM f xs a).
Proof.
  intros Hf. induction xs as [|x xs IH]; intros a; cbn [foldM].
  - apply keeps_ret.
  - apply keeps_bind; [apply Hf | apply IH].
Qed.

End Frames.

Ltac frame_step :=
  lazymatch goal with
  | |- keeps _ (bind _ _) => apply keeps_bind; try exact _; [| intros ?]
  | |- keeps _ (try_except _ _) => apply keeps_try; try exact _; [| intros ?]
  | |- keeps _ (foldM _ _ _) => apply keeps_foldM; try exact _; intros ? ?
  | |- keeps _ (if ?b then _ else _) => destruct b
  | |- keeps _ (match ?x with _ => _ end) => destruct x
  | |- keeps _ (ret _) => apply keeps_ret; exact _
  | |- keeps _ (raise _) => apply keeps_raise; exact _
  | |- keeps _ (lift _) => apply keeps_lift; exact _
  | |- keeps _ (tell _ _) => apply keeps_tell; exact _
  | |- keeps _ get_self => apply keeps_get_self; exact _
  | |- keeps _ (deref _) => apply keeps_deref; exact _
  | |- keeps _ (path_exists _) => apply keeps_path_exists; exact _
  | |- keeps _ (read_text _) => apply keeps_read_text; exact _
  | |- keeps _ (loads _) => apply keeps_loads; exact _
  end.

(** A relation kept by the three primitives that change the state is kept
    by every operation. *)
Section KeptByOperations.
Context {E : Env}.
Context (R : relation state) `{!PreOrder R}.
Hypothesis R_assign : forall r k v, keeps R (assign r k v).
Hypothesis R_write : forall p data, keeps R (write p data).
Hypothesis R_http_get : forall r, keeps R (http_get r).

Lemma keeps__get u ps h : keeps R (_get u ps h).
Proof. unfold _get. repeat frame_step; auto. Qed.

Lemma keeps__get_json u ps h : keeps R (_get_json u ps h).
Proof. unfold _get_json. repeat frame_step; auto using keeps__get. Qed.

Lemma keeps_get_pip i : keeps R (get_pip i).
Proof. unfold get_pip. repeat frame_step; auto using keeps__get_json. Qed.

Lemma keeps_get_thumbnail i u : keeps R (get_thumbnail i u).
Proof. unfold get_thumbnail. repeat frame_step; auto using keeps__get. Qed.

Lemma keeps_get_exists i : keeps R (get_exists i).
Proof. unfold get_exists. repeat frame_step; auto using keeps__get. Qed.

Lemma keeps_get_model i : keeps R (get_model i).
Proof.
  unfold get_model.
  repeat frame_step; auto using keeps__get, keeps__get_json, keeps_get_exists.
Qed.

Lemma keeps_search_item rs i : keeps R (search_item rs i).
Proof.
  unfold search_item, check_field, get_exists_of.
  repeat frame_step; auto using keeps_get_exists.
Qed.

Lemma keeps_search q : keeps R (search q).
Proof.
  unfold search. repeat frame_step; auto using keeps__get_json, keeps_search_item.
Qed.

Lemma keeps_call op : keeps R (call op).
Proof.
  destruct op; cbn [call]; repeat frame_step;
    auto using keeps_search, keeps_get_pip, keeps_get_thumbnail,
               keeps_get_exists, keeps_get_model.
Qed.

End KeptByOperations.

#[local] Instance same_client_preorder : PreOrder same_client.
Proof. split; unfold same_client; [intros s | intros a b c ? ?]; congruence. Qed.

#[local] Instance extends_preorder : PreOrder extends.
Proof.
  split.
  - intros s. exists []. now rewrite app_nil_r.
  - intros a b c [n1 H1] [n2 H2]. exists (n1 ++ n2). now rewrite H2, H1, app_assoc.
Qed.

Lemma same_client_assign {E : Env} r k v : keeps same_client (assign r k v).
Proof. intros s. now destruct r. Qed.

Lemma same_client_write {E : Env} p data : keeps same_client (write p data).
Proof. intros s. unfold write, same_client. now destruct (disk_ok p). Qed.

Lemma same_client_http_get {E : Env} r : keeps same_client (http_get r).
Proof. intros s. reflexivity. Qed.

Lemma extends_assign {E : Env} r k v : keeps extends (assign r k v).
Proof. intros s. exists []. destruct r; cbn [assign st sent]; now rewrite app_nil_r. Qed.

Lemma extends_write {E : Env} p data : keeps extends (write p data).
Proof.
  intros s. exists []. unfold write.
  destruct (disk_ok p); cbn [st sent]; now rewrite app_nil_r.
Qed.

Lemma extends_http_get {E : Env} r : keeps extends (http_get r).
Proof. intros s. now exists [r]. Qed.

(** C9. No operation of the client changes the country, the language or
    the cache directory of the client it is called on. *)
Theorem region_context_is_fixed {E : Env} (op : operation) (s : state) :
  country (this (st (call op s))) = country (this s) /\
  language (this (st (call op s))) = language (this s) /\
  cache_dir (this (st (call op s))) = cache_dir (this s).
Proof.
  assert (H : this (st (call op s)) = this s).
  { apply (keeps_call same_client);
      auto using same_client_assign, same_client_write, same_client_http_get. }
  now rewrite H.
Qed.

(** ** Weakest preconditions: running a program step by step *)

Section Wp.
Context {E : Env}.
Context {A : Type} (s : state).
Context (Q : result A -> state -> list (level * event) -> Prop).

Lemma wp_run (m : M A) r s' l :
  wp m s (fun r0 s0 l0 => r0 = r /\ s0 = s' /\ l0 = l) -> m s = Out r s' l.
Proof. unfold wp. destruct (m s) as [r0 s0 l0]; cbn [res st log]. now intros (-> & -> & ->). Qed.

Lemma wp_known (m : M A) r s' l : m s = Out r s' l -> Q r s' l -> wp m s Q.
Proof. unfold wp. now intros ->. Qed.

Lemma wp_ret a : Q (Ok a) s [] -> wp (ret a) s Q.
Proof. exact id. Qed.

Lemma wp_raise e : Q (Raise e) s [] -> wp (raise e) s Q.
Proof. exact id. Qed.

Lemma wp_lift r : Q r s [] -> wp (lift r) s Q.
Proof. exact id. Qed.

Lemma wp_bind {B} (m : M B) (f : B -> M A) :
  wp m s (fun r s1 l1 =>
            match r with
            | Ok b => wp (f b) s1 (fun r' s2 l2 => Q r' s2 (l1 ++ l2))
            | Raise e => Q (Raise e) s1 l1
            end) ->
  wp (bind m f) s Q.
Proof. unfold wp, bind. now destruct (res (m s)). Qed.

Lemma wp_try (m : M A) (h : exn -> M A) :
  wp m s (fun r s1 l1 =>
            match r with
            | Ok a => Q (Ok a) s1 l1
            | Raise e => wp (h e) s1 (fun r' s2 l2 => Q r' s2 (l1 ++ l2))
            end) ->
  wp (try_except m h) s Q.
Proof. unfold wp, try_except. now destruct (res (m s)). Qed.

Lemma wp_conseq (m : M A) (P : result A -> state -> list (level * event) -> Prop) :
  wp m s P -> (forall r s' l, P r s' l -> Q r s' l) -> wp m s Q.
Proof. unfold wp. auto. Qed.

Lemma wp_frame (R : relation state) (m : M A) :
  keeps R m -> (forall r s' l, R s s' -> Q r s' l) -> wp m s Q.
Proof. intros Hm HQ. apply HQ, Hm. Qed.

End Wp.

Section WpPrimitives.
Context {E : Env}.
Context (s : state).

Lemma wp_loads text Q : Q (decoded text) s [] -> wp (loads text) s Q.
Proof. unfold wp, loads, decoded. now destruct (json_loads text). Qed.

Lemma wp_tell lv e Q : Q (Ok tt) s [(lv, e)] -> wp (tell lv e) s Q.
Proof. exact id. Qed.

Lemma wp_get_self Q : Q (Ok (this s)) s [] -> wp get_self s Q.
Proof. exact id. Qed.

Lemma wp_deref r Q : Q (Ok (deref_in r s)) s [] -> wp (deref r) s Q.
Proof. exact id. Qed.

Lemma wp_assign r k v Q :
  Q (Ok tt)
    (match r with
     | GetDefault =>
         State (this s) (<[k := v]> (get_headers s)) (get_json_headers s) (files s) (sent s)
     | GetJsonDefault =>
         State (this s) (get_headers s) (<[k := v]> (get_json_headers s)) (files s) (sent s)
     end) [] ->
  wp (assign r k v) s Q.
Proof. exact id. Qed.

Lemma wp_path_exists p Q :
  Q (Ok (match files s !! p with Some _ => true | None => false end)) s [] ->
  wp (path_exists p) s Q.
Proof. exact id. Qed.

Lemma wp_read_text p Q :
  Q (match files s !! p with Some t => Ok t | None => Raise FileNotFoundError end) s [] ->
  wp (read_text p) s Q.
Proof. unfold wp, read_text. now destruct (files s !! p). Qed.

Lemma wp_write p data Q :
  (if disk_ok p
   then Q (Ok tt) (State (this s) (get_headers s) (get_json_headers s)
                         (<[p := data]> (files s)) (sent s)) []
   else Q (Raise OSError) s []) ->
  wp (write p data) s Q.
Proof. unfold wp, write. now destruct (disk_ok p). Qed.

Lemma wp_http_get r Q :
  Q (Ok (net (sent s) r))
    (State (this s) (get_headers s) (get_json_headers s) (files s) (sent s ++ [r])) [] ->
  wp (http_get r) s Q.
Proof. exact id. Qed.

End WpPrimitives.

Ltac wp_step :=
  lazymatch goal with
  | |- wp (bind _ _) _ _ => apply wp_bind
  | |- wp (try_except _ _) _ _ => apply wp_try
  | |- wp (ret _) _ _ => apply wp_ret
  | |- wp (raise _) _ _ => apply wp_raise
  | |- wp (lift _) _ _ => apply wp_lift
  | |- wp (loads _) _ _ => apply wp_loads
  | |- wp (tell _ _) _ _ => apply wp_tell
  | |- wp get_self _ _ => apply wp_get_self
  | |- wp (deref _) _ _ => apply wp_deref
  | |- wp (assign _ _ _) _ _ => apply wp_assign
  | |- wp (path_exists _) _ _ => apply wp_path_exists
  | |- wp (read_text _) _ _ => apply wp_read_text
  | |- wp (write _ _) _ _ => apply wp_write
  | |- wp (http_get _) _ _ => apply wp_http_get
  end; cbn beta iota.

Ltac wp_go := repeat wp_step.

(** *** [_get] and [_get_json] in closed form *)

Section Get.
Context {E : Env}.

Lemma _get_closed u ps h s :
  st (_get u ps h s) = after_get u ps h s /\ res (_get u ps h s) = fetched u ps h s.
Proof.
  change (wp (_get u ps h) s
             (fun r s' _ => s' = after_get u ps h s /\ r = fetched u ps h s)).
  unfold _get, after_get, fetched, request_of, stamped. wp_go.
  destruct (contains "web-api.ikea.com" u), h; wp_go;
    cbn [deref_in get_headers get_json_headers sent this files];
    (destruct (net _ _) as [status reason data | why];
     [destruct ((status <? 200) || (status >=? 300))|]); wp_go; auto.
Qed.

Lemma wp__get u ps h s Q :
  (forall l, Q (fetched u ps h s) (after_get u ps h s) l) -> wp (_get u ps h) s Q.
Proof.
  intros H. unfold wp. destruct (_get_closed u ps h s) as [-> ->]. apply H.
Qed.

Lemma wp__get_json u ps h s Q :
  (forall l, Q (and_then (fetched u ps h s) decoded) (after_get u ps h s) l) ->
  wp (_get_json u ps h) s Q.
Proof.
  intros H. unfold _get_json. wp_go. apply wp__get. intros l.
  destruct (fetched u ps h s); cbn [and_then] in *; wp_go; auto.
Qed.

End Get.

(** ** The cache *)

Section Cache.
Context {E : Env}.

Lemma after_get_this u ps h s : this (after_get u ps h s) = this s.
Proof. now destruct h. Qed.

Lemma after_get_files u ps h s : files (after_get u ps h s) = files s.
Proof. now destruct h. Qed.

Lemma after_get_sent u ps h s :
  sent (after_get u ps h s) = sent s ++ [request_of u ps h s].
Proof. now destruct h. Qed.

(** *** A file that is there is used as it is *)

Lemma get_pip_hit i s text :
  files s !! pip_path s i = Some text ->
  get_pip i s = Out (decoded text) s [(DEBUG, GettingPip i)].
Proof.
  unfold pip_path. intros H. apply wp_run. unfold get_pip.
  wp_go. rewrite H. cbn [negb]. wp_go. rewrite H. wp_go. auto.
Qed.

Lemma get_exists_hit i s text :
  files s !! exists_path s i = Some text ->
  get_exists i s =
    Out (and_then (decoded text) (fun v => Py.subscript v "exists")) s
        [(DEBUG, CheckingExists (JStr i))].
Proof.
  unfold exists_path. intros H. apply wp_run. unfold get_exists.
  wp_go. rewrite H. cbn [negb]. wp_go. rewrite H. wp_go.
  destruct (decoded text); cbn [and_then]; wp_go; auto.
Qed.

Lemma get_thumbnail_hit i u s text :
  files s !! thumbnail_path s i = Some text ->
  get_thumbnail i u s =
    Out (Ok (path_str (thumbnail_path s i))) s [(DEBUG, GettingThumbnail i)].
Proof.
  unfold thumbnail_path. intros H. apply wp_run. unfold get_thumbnail.
  wp_go. rewrite H. cbn [negb]. wp_go. auto.
Qed.

Lemma get_model_hit i s data :
  files s !! model_path s i = Some data ->
  get_model i s = Out (Ok (path_str (model_path s i))) s [(DEBUG, GettingModel i)].
Proof.
  unfold model_path. intros H. apply wp_run. unfold get_model.
  wp_go. rewrite H. cbn [negb]. wp_go. auto.
Qed.

(** *** What a call leaves behind *)


Lemma get_pip_returns i s v :
  res (get_pip i s) = Ok v ->
  grown 1 s (st (get_pip i s)) /\
  exists text, files (st (get_pip i s)) !! pip_path s i = Some text /\ decoded text = Ok v.
Proof.
  change (wp (get_pip i) s (fun r s' _ => r = Ok v ->
            grown 1 s s' /\
            exists text, files s' !! pip_path s i = Some text /\ decoded text = Ok v)).
  unfold get_pip, pip_path, grown. wp_go.
  destruct (files s !! _) as [text|] eqn:Hf; cbn [negb]; wp_go.
  - rewrite Hf. wp_go. intros Hv. split; [split; [reflexivity|lia]|]. eauto.
  - apply wp__get_json. intros l.
    destruct (and_then _ _) as [data|e]; [|discriminate]. wp_go.
    destruct (disk_ok _); [|discriminate]. wp_go.
    cbn [files this sent]. rewrite lookup_insert_eq. wp_go.
    cbn [files this sent]. rewrite lookup_insert_eq, after_get_this, after_get_sent, length_app.
    cbn [length]. intros Hv. split; [split; [reflexivity|lia]|]. eauto.
Qed.

Lemma get_exists_returns i s v :
  res (get_exists i s) = Ok v ->
  grown 1 s (st (get_exists i s)) /\
  exists text, files (st (get_exists i s)) !! exists_path s i = Some text /\
               and_then (decoded text) (fun d => Py.subscript d "exists") = Ok v.
Proof.
  change (wp (get_exists i) s (fun r s' _ => r = Ok v ->
            grown 1 s s' /\
            exists text, files s' !! exists_path s i = Some text /\
                         and_then (decoded text) (fun d => Py.subscript d "exists") = Ok v)).
  unfold get_exists, exists_path, grown. wp_go.
  destruct (files s !! _) as [text|] eqn:Hf; cbn [negb]; wp_go.
  - rewrite Hf. wp_go. destruct (decoded text) eqn:Hd; wp_go; [|discriminate].
    intros Hv. split; [split; [reflexivity|lia]|].
    exists text. now rewrite Hd.
  - apply wp__get. intros l.
    destruct (fetched _ _ _ _) as [data|e]; [|discriminate]. wp_go.
    destruct (disk_ok _); [|discriminate]. wp_go.
    cbn [files this sent]. rewrite lookup_insert_eq. wp_go.
    destruct (decoded data) eqn:Hd; wp_go; [|discriminate].
    cbn [files this sent]. rewrite lookup_insert_eq, after_get_this, after_get_sent, length_app.
    cbn [length]. intros Hv. split; [split; [reflexivity|lia]|].
    exists data. now rewrite Hd.
Qed.

(** On a miss the body that was fetched is cached before it is parsed, and
    what the parse raises leaves [get_exists] as it is, not wrapped. *)
Lemma get_exists_passes_parse_errors i s data e :
  files s !! exists_path s i = None ->
  fetched (exists_url (this s) i) [] GetDefault s = Ok data ->
  disk_ok (exists_path s i) = true ->
  and_then (decoded data) (fun d => Py.subscript d "exists") = Raise e ->
  res (get_exists i s) = Raise e /\
  files (st (get_exists i s)) !! exists_path s i = Some data.
Proof.
  unfold exists_path. intros Hf Hget Hdisk He.
  change (wp (get_exists i) s (fun r s' _ =>
            r = Raise e /\ files s' !! (cache_dir (this s), i, "exists.json") = Some data)).
  unfold get_exists. wp_go. rewrite Hf. cbn [negb]. wp_go.
  apply wp__get. intros l. rewrite Hget. wp_go. rewrite Hdisk. wp_go.
  cbn [files]. rewrite lookup_insert_eq. wp_go.
  destruct (decoded data) as [d|e']; cbn [and_then] in He; wp_go;
    cbn [files]; rewrite lookup_insert_eq.
  - now rewrite He.
  - now injection He as ->.
Qed.

Lemma get_thumbnail_returns i u s v :
  res (get_thumbnail i u s) = Ok v ->
  grown 1 s (st (get_thumbnail i u s)) /\
  v = path_str (thumbnail_path s i) /\
  is_Some (files (st (get_thumbnail i u s)) !! thumbnail_path s i).
Proof.
  change (wp (get_thumbnail i u) s (fun r s' _ => r = Ok v ->
            grown 1 s s' /\ v = path_str (thumbnail_path s i) /\
            is_Some (files s' !! thumbnail_path s i))).
  unfold get_thumbnail, thumbnail_path, grown. wp_go.
  destruct (files s !! _) as [text|] eqn:Hf; cbn [negb]; wp_go.
  - intros [= <-]. rewrite Hf. split; [split; [reflexivity|lia]|]. eauto.
  - apply wp__get. intros l.
    destruct (fetched _ _ _ _) as [data|e]; [|discriminate]. wp_go.
    destruct (disk_ok _); [|discriminate]. wp_go.
    cbn [files this sent]. rewrite lookup_insert_eq, after_get_this, after_get_sent, length_app.
    cbn [length]. intros [= <-]. split; [split; [reflexivity|lia]|]. eauto.
Qed.

(** The existence check touches nothing but its own cache file and sends
    at most one request, to the existence endpoint. *)
Lemma get_exists_effect i s :
  let s' := st (get_exists i s) in
  this s' = this s /\
  (forall p, p <> exists_path s i -> files s' !! p = files s !! p) /\
  exists new, sent s' = sent s ++ new /\ (length new <= 1)%nat /\
              Forall (fun q => url q = exists_url (this s) i) new.
Proof.
  change (wp (get_exists i) s (fun _ s' _ =>
            this s' = this s /\
            (forall p, p <> exists_path s i -> files s' !! p = files s !! p) /\
            exists new, sent s' = sent s ++ new /\ (length new <= 1)%nat /\
                        Forall (fun q => url q = exists_url (this s) i) new)).
  assert (Hstill : this s = this s /\
            (forall p, p <> exists_path s i -> files s !! p = files s !! p) /\
            exists new, sent s = sent s ++ new /\ (length new <= 1)%nat /\
                        Forall (fun q => url q = exists_url (this s) i) new).
  { repeat split. exists []. rewrite app_nil_r. repeat split; [cbn; lia | constructor]. }
  set (u := exists_url (this s) i).
  unfold get_exists, exists_path. wp_go.
  destruct (files s !! _) as [text|] eqn:Hf; cbn [negb]; wp_go.
  - rewrite Hf. wp_go. destruct (decoded text); wp_go; exact Hstill.
  - apply wp__get. intros l. fold u.
    assert (Hnew : exists new, sent (after_get u [] GetDefault s) = sent s ++ new /\
                     (length new <= 1)%nat /\ Forall (fun q => url q = u) new).
    { exists [request_of u [] GetDefault s]. rewrite after_get_sent.
      repeat split; [cbn; lia | repeat constructor]. }
    destruct (fetched _ _ _ _) as [data|e]; wp_go.
    + destruct (disk_ok _); wp_go; cbn [files this sent].
      * rewrite lookup_insert_eq. wp_go.
        destruct (decoded data); wp_go; cbn [files this sent];
          (split; [apply after_get_this|]; split; [|exact Hnew]);
          intros p Hp; rewrite lookup_insert_ne by congruence;
          now rewrite after_get_files.
      * split; [apply after_get_this|]. split; [|exact Hnew].
        intros p _. now rewrite after_get_files.
    + split; [apply after_get_this|]. split; [|exact Hnew].
      intros p _. now rewrite after_get_files.
Qed.

Lemma get_model_returns i s v :
  res (get_model i s) = Ok v ->
  grown 3 s (st (get_model i s)) /\
  v = path_str (model_path s i) /\
  is_Some (files (st (get_model i s)) !! model_path s i).
Proof.
  change (wp (get_model i) s (fun r s' _ => r = Ok v ->
            grown 3 s s' /\ v = path_str (model_path s i) /\
            is_Some (files s' !! model_path s i))).
  unfold get_model, model_path, grown. wp_go.
  destruct (files s !! _) as [text|] eqn:Hf; cbn [negb]; wp_go.
  - intros [= <-]. rewrite Hf. split; [split; [reflexivity|lia]|]. eauto.
  - apply (wp_conseq _ _ _ (fun _ s' _ => grown 1 s s')).
    { destruct (get_exists_effect i s) as (Ht & _ & new & Hs & Hl & _).
      unfold wp, grown. rewrite Hs, length_app. split; [exact Ht | lia]. }
    intros r s1 l1 [Ht1 Hl1].
    destruct r as [found|e]; wp_go; [|discriminate].
    destruct (negb (Py.truthy found)); wp_go; [discriminate|].
    apply wp__get_json. intros l2.
    destruct (and_then _ _) as [rotera_data|e]; wp_go; [|discriminate].
    destruct (Py.subscript rotera_data "modelUrl") as [modelUrl|e]; wp_go; [|discriminate].
    destruct modelUrl; wp_go; try discriminate.
    apply wp__get. intros l3.
    destruct (fetched _ _ _ _) as [data|e]; wp_go; [|discriminate].
    destruct (disk_ok _); wp_go; [|discriminate].
    cbn [files this sent].
    rewrite lookup_insert_eq, !after_get_this, !after_get_sent, !length_app.
    cbn [length]. intros [= <-]. split; [split; [congruence|lia]|]. eauto.
Qed.
End Cache.

Section TwoCalls.
Context {E : Env}.

Lemma res_bind_ret {A B} (m : M A) (f : A -> B) s :
  res (bind m (fun a => ret (f a)) s) =
  match res (m s) with Ok a => Ok (f a) | Raise e => Raise e end.
Proof. unfold bind. now destruct (res (m s)). Qed.

Lemma st_bind_ret {A B} (m : M A) (f : A -> B) s :
  st (bind m (fun a => ret (f a)) s) = st (m s).
Proof. unfold bind. now destruct (res (m s)). Qed.

(** C5, amended. When the first of two successive calls of [get_pip],
    [get_thumbnail], [get_exists] or [get_model] returns, the second call
    leaves the state as it is (no request is sent, no file is written) and
    returns the same value; the first call sends at most one request, and
    [get_model] at most three. *)
Theorem second_call_is_served_from_cache (op : operation) (s : state) (v : value) :
  cache_first op = true ->
  res (call op s) = Ok v ->
  let first := call op s in
  let second := call op (st first) in
  st second = st first /\
  res second = Ok v /\
  (length (sent (st first)) <= length (sent s) + fetches op)%nat.
Proof.
  intros Hop Hv. cbn zeta.
  destruct op as [? | ? | ? | ? | i | i u | i | i]; try discriminate Hop;
    cbn [call fetches] in *;
    rewrite !res_bind_ret, !st_bind_ret in *.
  - destruct (res (get_pip i s)) as [j|] eqn:Hj; [|discriminate].
    destruct (get_pip_returns _ _ _ Hj) as ([Ht Hl] & text & Hf & Hd).
    assert (Hf' : files (st (get_pip i s)) !! pip_path (st (get_pip i s)) i
                  = Some text) by (unfold pip_path in *; now rewrite Ht).
    rewrite (get_pip_hit _ _ _ Hf'). cbn [res st]. rewrite Hd. auto.
  - destruct (res (get_thumbnail i u s)) as [j|] eqn:Hj; [|discriminate].
    destruct (get_thumbnail_returns _ _ _ _ Hj) as ([Ht Hl] & -> & text & Hf).
    assert (Hf' : files (st (get_thumbnail i u s))
                    !! thumbnail_path (st (get_thumbnail i u s)) i
                  = Some text) by (unfold thumbnail_path in *; now rewrite Ht).
    rewrite (get_thumbnail_hit _ _ _ _ Hf'). cbn [res st].
    unfold thumbnail_path. rewrite Ht. auto.
  - destruct (res (get_exists i s)) as [j|] eqn:Hj; [|discriminate].
    destruct (get_exists_returns _ _ _ Hj) as ([Ht Hl] & text & Hf & Hd).
    assert (Hf' : files (st (get_exists i s))
                    !! exists_path (st (get_exists i s)) i
                  = Some text) by (unfold exists_path in *; now rewrite Ht).
    rewrite (get_exists_hit _ _ _ Hf'). cbn [res st]. rewrite Hd. auto.
  - destruct (res (get_model i s)) as [j|] eqn:Hj; [|discriminate].
    destruct (get_model_returns _ _ _ Hj) as ([Ht Hl] & -> & data & Hf).
    assert (Hf' : files (st (get_model i s))
                    !! model_path (st (get_model i s)) i
                  = Some data) by (unfold model_path in *; now rewrite Ht).
    rewrite (get_model_hit _ _ _ Hf'). cbn [res st].
    unfold model_path. rewrite Ht. auto.
Qed.

End TwoCalls.

Lemma second_call_is_served_from_cache_witness :
  let E := Sample.env 200 Sample.with_model (Sample.search_page []) in
  let op := GetModel "12345678" in
  cache_first op = true /\
  res (call op Sample.ie) = Ok (Text "cache/12345678/model.glb") /\
  st (call op (st (call op Sample.ie))) = st (call op Sample.ie) /\
  res (call op (st (call op Sample.ie))) = Ok (Text "cache/12345678/model.glb") /\
  (length (sent (st (call op Sample.ie))) <= length (sent Sample.ie) + fetches op)%nat.
Proof.
  cbn zeta. split; [reflexivity|]. split; [vm_compute; reflexivity|].
  apply (second_call_is_served_from_cache
           (E := Sample.env 200 Sample.with_model (Sample.search_page []))
           (GetModel "12345678") Sample.ie (Text "cache/12345678/model.glb"));
    vm_compute; reflexivity.
Defined.

(** C5, as stated, fails: when the server answers 500 nothing is cached
    and the second [get_pip] sends a second request; and a first
    [get_model] that succeeds has sent three requests. *)
Lemma failed_fetch_is_repeated :
  ~ fetched_once (E := Sample.env 500 Sample.with_model (Sample.search_page []))
      (GetPip "12345678") Sample.ie /\
  ~ fetched_once (E := Sample.env 200 Sample.with_model (Sample.search_page []))
      (GetModel "12345678") Sample.ie.
Proof.
  unfold fetched_once. split; intros [H _]; vm_compute in H; lia.
Qed.

Section Model.
Context {E : Env}.

Lemma exists_url_is_not_model_url (c : client) (i : string) :
  exists_url c i <> model_url c i.
Proof.
  unfold exists_url, model_url. intros H.
  do 4 apply (inj (String.app _)) in H.
  cbv [String.append] in H. discriminate H.
Qed.

(** C4. With no cached model file, when the existence check returns a
    false value [get_model] raises the client error, ends in the very state
    the existence check left (so no model file is written and the model
    entry stays absent), and the only request sent, if any, is the one to
    the existence endpoint, never one to the model-metadata endpoint. *)
Theorem get_model_without_model (itemNo : string) (s s1 : state)
        (l : list (level * event)) (found : json) :
  files s !! model_path s itemNo = None ->
  get_exists itemNo s = Out (Ok found) s1 l ->
  Py.truthy found = false ->
  res (get_model itemNo s) =
    Raise (IkeaException (ErrorAt (DownloadingModel itemNo)
                                  (IkeaException (NoModelAvailable itemNo)))) /\
  st (get_model itemNo s) = s1 /\
  files s1 !! model_path s itemNo = None /\
  exists new,
    sent s1 = sent s ++ new /\ (length new <= 1)%nat /\
    Forall (fun q => url q = exists_url (this s) itemNo /\
                     url q <> model_url (this s) itemNo) new.
Proof.
  intros Hf Hex Hfound.
  pose proof (get_exists_effect itemNo s) as Heff. rewrite Hex in Heff. cbn [st] in Heff.
  destruct Heff as (Ht & Hfiles & new & Hsent & Hlen & Hall).
  assert (Hlater : files s1 !! model_path s itemNo = None /\
            exists new, sent s1 = sent s ++ new /\ (length new <= 1)%nat /\
              Forall (fun q => url q = exists_url (this s) itemNo /\
                               url q <> model_url (this s) itemNo) new).
  { split.
    - rewrite Hfiles; [exact Hf|]. unfold model_path, exists_path. intros [=].
    - exists new. repeat split; auto.
      eapply Forall_impl; [exact Hall|]. cbn beta. intros q ->.
      split; [reflexivity | apply exists_url_is_not_model_url]. }
  cut (wp (get_model itemNo) s
          (fun r s' _ =>
             r = Raise (IkeaException (ErrorAt (DownloadingModel itemNo)
                                               (IkeaException (NoModelAvailable itemNo))))
             /\ s' = s1)).
  { unfold wp. intros [-> ->]. auto. }
  unfold model_path in Hf. unfold get_model. wp_go. rewrite Hf. cbn [negb]. wp_go.
  eapply wp_known; [exact Hex|]. cbn beta iota. wp_go.
  rewrite Hfound. cbn [negb]. wp_go. auto.
Qed.

(** The parameters of the request [search] sends, by what [is_item_no]
    answers for the query. *)
Lemma search_request_parameters (query : string) (s : state) :
  let params :=
    if is_item_no query
    then [("types", "PRODUCT"); ("q", query); ("size", "1"); ("c", "sr");
          ("v", "20210322")]
    else [("types", "PRODUCT"); ("q", query); ("size", "24"); ("c", "sr");
          ("v", "20210322"); ("autocorrect", "true");
          ("subcategories-style", "tree-navigation")] in
  exists hs later,
    sent (st (search query s)) =
    sent s ++ Request (search_url (this s)) params hs :: later.
Proof.
  cbn zeta.
  assert (Hps : search_params query =
                if is_item_no query
                then [("types", "PRODUCT"); ("q", query); ("size", "1"); ("c", "sr");
                      ("v", "20210322")]
                else [("types", "PRODUCT"); ("q", query); ("size", "24"); ("c", "sr");
                      ("v", "20210322"); ("autocorrect", "true");
                      ("subcategories-style", "tree-navigation")]).
  { unfold search_params. now destruct (is_item_no query). }
  rewrite <- Hps. clear Hps.
  change (wp (search query) s
             (fun _ s' _ => exists hs later,
                  sent s' = sent s ++ Request (search_url (this s)) (search_params query) hs
                                      :: later)).
  unfold search. wp_go. apply wp__get_json. intros l0.
  set (sa := after_get _ _ _ s).
  assert (Hsa : forall s', extends sa s' ->
            exists hs later,
              sent s' = sent s ++ Request (search_url (this s)) (search_params query) hs
                                  :: later).
  { intros s' [new Hnew]. unfold sa in Hnew. rewrite after_get_sent in Hnew.
    eexists _, new. rewrite Hnew, <- app_assoc. reflexivity. }
  destruct (and_then _ _) as [doc|e]; cbn beta iota.
  - eapply (wp_frame _ _ extends); [|intros; now apply Hsa].
    pose proof (keeps_search_item extends extends_assign extends_write extends_http_get).
    repeat frame_step; auto.
  - wp_go. apply Hsa. reflexivity.
Qed.

(** The same by the form of the query: a query of the 3-3-2 form is sent
    with [size=1]; a query that is neither of that form nor such a string
    followed by one newline is sent with [size=24], [autocorrect=true] and
    [subcategories-style=tree-navigation]. *)
Lemma search_request_by_form (query : string) (s : state) :
  (item_no_form query ->
   exists hs later,
     sent (st (search query s)) =
     sent s ++ Request (search_url (this s))
                 [("types", "PRODUCT"); ("q", query); ("size", "1"); ("c", "sr");
                  ("v", "20210322")] hs :: later) /\
  ((forall t, item_no_form t -> query <> t /\ query <> with_newline t) ->
   exists hs later,
     sent (st (search query s)) =
     sent s ++ Request (search_url (this s))
                 [("types", "PRODUCT"); ("q", query); ("size", "24"); ("c", "sr");
                  ("v", "20210322"); ("autocorrect", "true");
                  ("subcategories-style", "tree-navigation")] hs :: later).
Proof.
  pose proof (search_request_parameters query s) as H. cbn zeta in H.
  split.
  - intros [Hq _]%is_item_no_complete. now rewrite Hq in H.
  - intros Hno. destruct (is_item_no query) eqn:Hq; [|exact H].
    apply is_item_no_sound in Hq as (t & Ht & Hform).
    destruct (Hno t Hform) as [H1 H2]. now destruct Ht.
Qed.

(** C6. [search] is claimed to send [size=1] without [autocorrect] for a
    valid item identifier, and [size=24] with [autocorrect=true] and
    [subcategories-style=tree-navigation] for every other query.
    Evaluated on ["12345678"] followed by a newline, which is not of the
    3-3-2 form, the request carries [size=1] and neither of the two other
    parameters: [search] asks [is_item_no], and [is_item_no] accepts that
    query. *)
Theorem search_sends_newline_query_as_item_lookup (s : state) :
  let query := with_newline "12345678" in
  ~ item_no_form query /\
  exists hs later,
    sent (st (search query s)) =
    sent s ++ Request (search_url (this s))
                [("types", "PRODUCT"); ("q", query); ("size", "1"); ("c", "sr");
                 ("v", "20210322")] hs :: later.
Proof.
  cbn zeta. split.
  - intros H%item_no_form_all. discriminate H.
  - pose proof (search_request_parameters (with_newline "12345678") s) as H.
    cbn zeta in H.
    change (is_item_no (with_newline "12345678")) with true in H.
    exact H.
Qed.

End Model.

Lemma get_model_without_model_witness :
  let E := Sample.env 200 Sample.without_model (Sample.search_page []) in
  let o := get_exists "12345678" Sample.ie in
  files Sample.ie !! model_path Sample.ie "12345678" = None /\
  Py.truthy (JBool false) = false /\
  res (get_model "12345678" Sample.ie) =
    Raise (IkeaException (ErrorAt (DownloadingModel "12345678")
                                  (IkeaException (NoModelAvailable "12345678")))) /\
  st (get_model "12345678" Sample.ie) = st o /\
  files (st o) !! model_path Sample.ie "12345678" = None /\
  exists new,
    sent (st o) = sent Sample.ie ++ new /\ (length new <= 1)%nat /\
    Forall (fun q => url q = exists_url (this Sample.ie) "12345678" /\
                     url q <> model_url (this Sample.ie) "12345678") new.
Proof.
  cbn zeta. split; [reflexivity|]. split; [reflexivity|].
  apply (get_model_without_model
           (E := Sample.env 200 Sample.without_model (Sample.search_page []))
           "12345678" Sample.ie _
           (log (get_exists (E := Sample.env 200 Sample.without_model (Sample.search_page []))
                            "12345678" Sample.ie))
           (JBool false)).
  - reflexivity.
  - vm_compute. reflexivity.
  - reflexivity.
Defined.

(** ** The headers of a request *)

Section Headers.
Context {E : Env}.

Lemma _get_sends u ps h s :
  sent (st (_get u ps h s)) = sent s ++ [request_of u ps h s].
Proof. destruct (_get_closed u ps h s) as [-> _]. apply after_get_sent. Qed.

Lemma stamped_carries u hs :
  contains "web-api.ikea.com" u = true ->
  stamped u hs !! "X-Client-Id" = Some CLIENT_ID /\
  stamped u hs !! "User-Agent" = Some USER_AGENT.
Proof.
  unfold stamped. intros ->. split.
  - rewrite lookup_insert_ne by discriminate. apply lookup_insert_eq.
  - apply lookup_insert_eq.
Qed.

(** The request of [_get] carries the two headers when the URL contains
    the name of the web-API host, and also when the dict it was given
    carried them already. *)
Lemma request_of_carries u ps h s :
  carries_web_api_headers (request_of u ps h s) <->
  contains "web-api.ikea.com" u = true \/
  carries_web_api_headers (Request u ps (deref_in h s)).
Proof.
  unfold carries_web_api_headers, request_of. cbn [headers].
  destruct (contains "web-api.ikea.com" u) eqn:Hu.
  - split; [auto|]. intros _. now apply stamped_carries.
  - unfold stamped. rewrite Hu. split; [auto|]. now intros [|].
Qed.

(** Once a request has gone to the web API through a dict, every later
    request made through the same dict carries the two headers, whatever
    its URL. *)
Lemma headers_stay u ps h s u' ps' :
  contains "web-api.ikea.com" u = true ->
  carries_web_api_headers (request_of u' ps' h (st (_get u ps h s))).
Proof.
  intros Hu. destruct (_get_closed u ps h s) as [-> _].
  apply request_of_carries. right.
  unfold carries_web_api_headers. cbn [headers].
  destruct h; cbn [after_get deref_in get_headers get_json_headers];
    now apply stamped_carries.
Qed.

End Headers.

(** C1. The two headers are claimed to be sent to the web-API host only,
    whatever was requested before.  Evaluated on a new client: after one
    existence check, the thumbnail is requested from [www.ikea.com] with
    both headers, because [_get] wrote them into the dict that is its
    [headers] default. *)
Theorem web_api_headers_leak :
  let E := Sample.env 200 Sample.with_model (Sample.search_page []) in
  let s1 := st (get_exists "12345678" Sample.ie) in
  let s2 := st (get_thumbnail "12345678" "https://www.ikea.com/billy.jpg" s1) in
  exists r,
    last (sent s2) = Some r /\
    url r = "https://www.ikea.com/billy.jpg" /\
    contains "web-api.ikea.com" (url r) = false /\
    carries_web_api_headers r.
Proof.
  cbn zeta. eexists. split; [vm_compute; reflexivity|].
  vm_compute. auto.
Qed.

(** ** Search *)

Section SearchItems.
Context {E : Env}.

Lemma check_fields_of_object kvs name fields valid s :
  Py.dict_get "name" kvs = Some name ->
  foldM (check_field (JObj kvs)) fields valid s =
    Out (Ok (valid && forallb (fun f => negb (missing kvs f)) fields)) s
        (map (fun f => (INFO, IsMissing name f)) (List.filter (missing kvs) fields)).
Proof.
  intros Hname. revert valid.
  induction fields as [|f fields IH]; intros valid; apply wp_run;
    cbn [foldM forallb List.filter map].
  - wp_go. now rewrite andb_true_r.
  - assert (Hm : missing kvs f =
                 match Py.dict_get f kvs with Some _ => false | None => true end)
      by reflexivity.
    unfold check_field at 1. wp_go. cbn [Py.contains_key Py.subscript]. wp_go.
    destruct (Py.dict_get f kvs) eqn:Hf; rewrite Hm; cbn [negb]; wp_go.
    + eapply wp_known; [apply IH|]. cbn beta. auto.
    + rewrite Hname. wp_go.
      eapply wp_known; [apply IH|]. cbn beta.
      cbn [andb map app]. rewrite andb_false_r. auto.
Qed.

(** An item whose product has a name but lacks one of the four fields is
    dropped and logged; nothing is fetched for it and nothing is raised. *)
Lemma search_item_drops_incomplete results item kvs name field s :
  Py.subscript item "product" = Ok (JObj kvs) ->
  Py.dict_get "name" kvs = Some name ->
  field ∈ ["itemNo"; "mainImageUrl"; "mainImageAlt"; "pipUrl"] ->
  Py.dict_get field kvs = None ->
  res (search_item results item s) = Ok results /\
  st (search_item results item s) = s /\
  (INFO, IsMissing name field) ∈ log (search_item results item s).
Proof.
  intros Hp Hname Hin Hmiss.
  assert (Hreq : field ∈ required_fields) by now rewrite required_fields_perm.
  change (wp (search_item results item) s
             (fun r s' l => r = Ok results /\ s' = s /\ (INFO, IsMissing name field) ∈ l)).
  unfold search_item. wp_go. rewrite Hp. wp_go.
  eapply wp_known; [apply (check_fields_of_object _ name); exact Hname|]. cbn beta iota.
  assert (Hf : forallb (fun f => negb (missing kvs f)) required_fields = false).
  { apply not_true_is_false. intros Hall. rewrite forallb_forall in Hall.
    specialize (Hall field). rewrite <- list_elem_of_In in Hall. specialize (Hall Hreq).
    unfold missing in Hall. now rewrite Hmiss in Hall. }
  rewrite Hf. cbn [andb]. wp_go. repeat split.
  rewrite !app_nil_r.
  apply list_elem_of_In, (in_map (fun f => (INFO, IsMissing name f))), filter_In.
  split; [now apply list_elem_of_In|]. unfold missing. now rewrite Hmiss.
Qed.

Lemma check_fields_without_name kvs fields valid s :
  Py.dict_get "name" kvs = None ->
  existsb (missing kvs) fields = true ->
  foldM (check_field (JObj kvs)) fields valid s = Out (Raise (KeyError "name")) s [].
Proof.
  intros Hname. revert valid.
  induction fields as [|f fields IH]; intros valid Hex; [discriminate Hex|].
  cbn [existsb] in Hex. apply wp_run. cbn [foldM].
  unfold check_field at 1. wp_go. cbn [Py.contains_key Py.subscript]. wp_go.
  unfold missing at 1 in Hex.
  destruct (Py.dict_get f kvs) eqn:Hf; cbn [negb orb] in *; wp_go.
  - eapply wp_known; [apply IH, Hex|]. auto.
  - rewrite Hname. wp_go. auto.
Qed.

(** Without a name the same item stops the whole search: the lookup of the
    name for the log line raises. *)
Lemma search_item_raises_without_name results item kvs field s :
  Py.subscript item "product" = Ok (JObj kvs) ->
  Py.dict_get "name" kvs = None ->
  field ∈ ["itemNo"; "mainImageUrl"; "mainImageAlt"; "pipUrl"] ->
  Py.dict_get field kvs = None ->
  search_item results item s = Out (Raise (KeyError "name")) s [].
Proof.
  intros Hp Hname Hin Hmiss.
  assert (Hreq : field ∈ required_fields) by now rewrite required_fields_perm.
  apply wp_run. unfold search_item. wp_go. rewrite Hp. wp_go.
  eapply wp_known; [apply check_fields_without_name; [exact Hname|]|]; [|cbn; auto].
  apply existsb_exists. exists field. split; [now apply list_elem_of_In|].
  unfold missing. now rewrite Hmiss.
Qed.

End SearchItems.

(** C2. An item that lacks one of the four fields is claimed to be
    dropped without an error even when it has no [name].  Evaluated on a
    response whose second item lacks [mainImageAlt] and [name], [search]
    raises [KeyError "name"]; with a [name] the same item is dropped. *)
Theorem search_raises_on_nameless_item :
  res (search (E := Sample.env 200 Sample.with_model
                      (Sample.search_page [Sample.billy; Sample.nameless]))
              "billy" Sample.ie)
  = Raise (KeyError "name") /\
  res (search (E := Sample.env 200 Sample.with_model
                      (Sample.search_page [Sample.billy; Sample.no_alt]))
              "billy" Sample.ie)
  = Ok [JObj [("itemNo", JStr "12345678"); ("name", JStr "BILLY");
              ("mainImageUrl", JStr "https://www.ikea.com/billy.jpg");
              ("mainImageAlt", JStr "BILLY bookcase");
              ("pipUrl", JStr "https://www.ikea.com/ie/en/p/billy-12345678/")]].
Proof. split; vm_compute; reflexivity. Qed.

(** C3. Every failure is claimed to reach the caller as the client error.
    Evaluated: an existence answer without the [exists] field, an existence
    answer that is not JSON, a cached [pip.json] that is not JSON and a
    search answer without [searchResultPage] each raise the raw error of
    the parse that follows the [try] block. *)
Theorem raw_errors_reach_the_caller :
  res (call (E := Sample.env 200 "{}" (Sample.search_page []))
            (GetExists "12345678") Sample.ie) = Raise (KeyError "exists") /\
  res (call (E := Sample.env 200 "<html>" (Sample.search_page []))
            (GetExists "12345678") Sample.ie) = Raise JSONDecodeError /\
  res (call (E := Sample.env 200 Sample.with_model (Sample.search_page []))
            (GetPip "12345678") Sample.corrupt_pip) = Raise JSONDecodeError /\
  res (call (E := Sample.env 200 Sample.with_model (JObj []))
            (Search "billy") Sample.ie) = Raise (KeyError "searchResultPage") /\
  ~ uniform_errors (E := Sample.env 200 "{}" (Sample.search_page []))
      (GetExists "12345678") Sample.ie.
Proof.
  repeat split; try (vm_compute; reflexivity).
  intros H. specialize (H (KeyError "exists")). discriminate H. vm_compute. reflexivity.
Qed.

(** * Further properties *)

(** ** Item numbers: the two representations *)

Ltac split_digits :=
  repeat match goal with
         | H : all_digits _ = true |- _ => progress cbn [all_digits] in H
         | H : _ && _ = true |- _ => apply andb_prop in H; destruct H
         end.

Lemma substring_nothing (s : string) : substring 0 0 s = "".
Proof. now destruct s. Qed.

(** [format_item_no] in terms of the digits of its argument. *)
Lemma format_item_no_digits (s : string) :
  format_item_no s =
  slice 0 3 (digits_of s) +:+ "." +:+ slice 3 6 (digits_of s) +:+ "."
  +:+ slice 6 8 (digits_of s).
Proof. unfold format_item_no. now rewrite compact_item_no_digits. Qed.

Lemma is_item_no_of_layout (d : string) :
  all_digits d = true ->
  is_item_no (slice 0 3 d +:+ "." +:+ slice 3 6 d +:+ "." +:+ slice 6 8 d)
  = (8 <=? String.length d)%nat.
Proof.
  intros Hd.
  destruct d as [|c1 [|c2 [|c3 [|c4 [|c5 [|c6 [|c7 [|c8 rest]]]]]]]];
    split_digits; unfold slice; cbn [substring Nat.sub String.length Nat.leb];
    rewrite ?substring_nothing; cbv [String.append];
    unfold is_item_no, re_match, item_no_pattern, Re.d, lit; cbn [walk andb];
    use_digits; reflexivity.
Qed.

Lemma digits_of_layout (d : string) :
  all_digits d = true ->
  digits_of (slice 0 3 d +:+ "." +:+ slice 3 6 d +:+ "." +:+ slice 6 8 d)
  = slice 0 8 d.
Proof.
  intros Hd.
  destruct d as [|c1 [|c2 [|c3 [|c4 [|c5 [|c6 [|c7 [|c8 rest]]]]]]]];
    split_digits; unfold slice; cbn [substring Nat.sub];
    rewrite ?substring_nothing; cbv [String.append]; cbn [digits_of]; use_digits;
    change (is_digit ".") with false; cbn iota; use_digits; reflexivity.
Qed.

Lemma layout_of_prefix (d : string) :
  slice 0 3 (slice 0 8 d) +:+ "." +:+ slice 3 6 (slice 0 8 d) +:+ "."
  +:+ slice 6 8 (slice 0 8 d)
  = slice 0 3 d +:+ "." +:+ slice 3 6 d +:+ "." +:+ slice 6 8 d.
Proof.
  destruct d as [|c1 [|c2 [|c3 [|c4 [|c5 [|c6 [|c7 [|c8 rest]]]]]]]];
    unfold slice; cbn [substring Nat.sub]; rewrite ?substring_nothing; reflexivity.
Qed.

Lemma digits_of_valid (x : string) :
  is_item_no x = true -> String.length (digits_of x) = 8%nat.
Proof.
  intros (t & Hx & a & p & b & q & c & -> & [La Da] & Hp & [Lb Db] & Hq & [Lc Dc])
         %is_item_no_sound.
  destruct a as [|a1 [|a2 [|a3 [|]]]]; try discriminate La.
  destruct b as [|b1 [|b2 [|b3 [|]]]]; try discriminate Lb.
  destruct c as [|c1 [|c2 [|]]]; try discriminate Lc.
  split_digits.
  destruct Hx as [-> | ->], Hp as [-> | ->], Hq as [-> | ->];
    unfold with_newline; cbv [String.append]; cbn [digits_of]; use_digits;
    change (is_digit ".") with false; change (is_digit newline) with false;
    cbn iota; use_digits; reflexivity.
Qed.

Lemma slice_all (d : string) (n : nat) :
  String.length d = n -> slice 0 n d = d.
Proof.
  unfold slice. rewrite Nat.sub_0_r. revert n.
  induction d as [|c d IH]; intros n <-; cbn [String.length substring]; [reflexivity|].
  now rewrite IH.
Qed.

(** X1. Formatting is idempotent on every string: the formatted text has
    at most the first eight digits of its argument, and formatting it again
    changes nothing. *)
Theorem format_item_no_idempotent (s : string) :
  format_item_no (format_item_no s) = format_item_no s.
Proof.
  rewrite (format_item_no_digits (format_item_no s)), !format_item_no_digits.
  rewrite digits_of_layout by apply all_digits_digits_of.
  apply layout_of_prefix.
Qed.

(** X2. The text [format_item_no] returns is accepted by [is_item_no]
    exactly when its argument holds at least eight digits. *)
Theorem format_item_no_is_valid_iff (s : string) :
  is_item_no (format_item_no s) = true <-> (8 <= String.length (digits_of s))%nat.
Proof.
  rewrite format_item_no_digits, is_item_no_of_layout by apply all_digits_digits_of.
  apply Nat.leb_le.
Qed.

(** X3. For a string of the 3-3-2 form (three digits, an optional dot,
    three digits, an optional dot, two digits, the digits being ['0'] to
    ['9']): [is_item_no] accepts it, its compact form has exactly eight
    characters, the compact and the formatted form are accepted again, and
    compacting the formatted form gives the compact form. *)
Theorem valid_item_no_round_trip (x : string) :
  item_no_form x ->
  is_item_no x = true /\
  String.length (compact_item_no x) = 8%nat /\
  is_item_no (compact_item_no x) = true /\
  is_item_no (format_item_no x) = true /\
  compact_item_no (format_item_no x) = compact_item_no x.
Proof.
  intros [Hx _]%is_item_no_complete. split; [exact Hx|].
  pose proof (digits_of_valid x Hx) as H8.
  pose proof (all_digits_digits_of x) as Hd.
  rewrite !compact_item_no_digits.
  split; [exact H8|]. split; [|split].
  - destruct (digits_of x) as [|c1 [|c2 [|c3 [|c4 [|c5 [|c6 [|c7 [|c8 [|]]]]]]]]];
      try discriminate H8.
    split_digits.
    apply (is_item_no_complete (String c1 (String c2 (String c3 (String c4
             (String c5 (String c6 (String c7 (String c8 ""))))))))).
    exists (String c1 (String c2 (String c3 ""))), "",
           (String c4 (String c5 (String c6 ""))), "",
           (String c7 (String c8 "")).
    split; [reflexivity|].
    repeat split; cbn [all_digits]; use_digits; auto; now left.
  - rewrite format_item_no_digits, is_item_no_of_layout by exact Hd.
    rewrite H8. reflexivity.
  - rewrite format_item_no_digits, digits_of_layout by exact Hd.
    now apply slice_all.
Qed.

Lemma valid_item_no_round_trip_witness :
  item_no_form "123.456.78" /\
  is_item_no "123.456.78" = true /\
  String.length (compact_item_no "123.456.78") = 8%nat /\
  is_item_no (compact_item_no "123.456.78") = true /\
  is_item_no (format_item_no "123.456.78") = true /\
  compact_item_no (format_item_no "123.456.78") = compact_item_no "123.456.78".
Proof.
  assert (H : item_no_form "123.456.78").
  { exists "123", ".", "456", ".", "78".
    split; [reflexivity|]. repeat split; reflexivity || (right; reflexivity). }
  split; [exact H|]. apply (valid_item_no_round_trip "123.456.78" H).
Defined.

(** ** Relations kept by [search], by every operation, by every session *)

Section KeptBySearch.
Context {E : Env}.
Context (R : relation state) `{!PreOrder R}.
Hypothesis R_get_json : forall u ps h, keeps R (_get_json u ps h).
Hypothesis R_get_exists : forall i, keeps R (get_exists i).

Lemma via_search_item rs i : keeps R (search_item rs i).
Proof.
  unfold search_item, check_field, get_exists_of. repeat frame_step; auto.
Qed.

Lemma via_search q : keeps R (search q).
Proof. unfold search. repeat frame_step; auto using via_search_item. Qed.

End KeptBySearch.

Section KeptByGet.
Context {E : Env}.
Context (R : relation state) `{!PreOrder R}.
Context (P : path -> Prop).
Hypothesis R_get : forall u ps h, keeps R (_get u ps h).
Hypothesis R_write : forall p data, P p -> keeps R (write p data).

Lemma via_get__get_json u ps h : keeps R (_get_json u ps h).
Proof. unfold _get_json. repeat frame_step; auto. Qed.

Lemma via_get_get_pip i : (forall c, P (c, i, "pip.json")) -> keeps R (get_pip i).
Proof. intros HP. unfold get_pip. repeat frame_step; auto using via_get__get_json. Qed.

Lemma via_get_get_thumbnail i u :
  (forall c, P (c, i, "thumbnail.jpg")) -> keeps R (get_thumbnail i u).
Proof. intros HP. unfold get_thumbnail. repeat frame_step; auto. Qed.

Lemma via_get_get_exists i : (forall c, P (c, i, "exists.json")) -> keeps R (get_exists i).
Proof. intros HP. unfold get_exists. repeat frame_step; auto. Qed.

Lemma via_get_get_model i :
  (forall c, P (c, i, "exists.json")) -> (forall c, P (c, i, "model.glb")) ->
  keeps R (get_model i).
Proof.
  intros HP1 HP2. unfold get_model.
  repeat frame_step; auto using via_get__get_json, via_get_get_exists.
Qed.



End KeptByGet.

#[local] Instance touches_preorder P : PreOrder (touches P).
Proof.
  split.
  - now intros s p _.
  - intros a b c Hab Hbc p Hp. now rewrite Hbc, Hab.
Qed.

Section Ownership.
Context {E : Env}.

Lemma touches__get P u ps h : keeps (touches P) (_get u ps h).
Proof.
  intros s p _. destruct (_get_closed u ps h s) as [-> _]. now rewrite after_get_files.
Qed.

Lemma touches_write (P : path -> Prop) p data : P p -> keeps (touches P) (write p data).
Proof.
  intros HP s q Hq. unfold write. destruct (disk_ok p); cbn [st files]; [|reflexivity].
  apply lookup_insert_ne. intros ->. contradiction.
Qed.

(** X8. Called for an item number in compact form (digits, at least one),
    [get_pip], [get_thumbnail], [get_exists] and [get_model] change none of
    the files the cache keeps for items in compact form other than their
    own: [pip.json], [thumbnail.jpg] or [exists.json] of their item, and
    for [get_model] the [exists.json] and the [model.glb] of its item. *)
Theorem operations_write_only_their_files (op : operation) (i : string)
        (s : state) (p : path) :
  item_of op = Some i ->
  is_compact i = true ->
  cache_file s p = true ->
  ~ own op s p ->
  files (st (call op s)) !! p = files s !! p.
Proof.
  intros Hi _ Hfile Hp.
  destruct p as [[c j] leaf]. unfold cache_file in Hfile. cbn [fst snd] in Hfile.
  apply andb_prop in Hfile as [Hfile _]. apply andb_prop in Hfile as [Hroot _].
  apply String.eqb_eq in Hroot. subst c.
  destruct op as [x | x | x | q | i' | i' u | i' | i']; try discriminate Hi;
    injection Hi as ->; cbn [call own] in *; rewrite st_bind_ret.
  - apply (via_get_get_pip (touches (fun q : path => q.1.2 = i /\ q.2 = "pip.json"))
             (fun q : path => q.1.2 = i /\ q.2 = "pip.json")
             (touches__get _) (touches_write _) i (fun _ => conj eq_refl eq_refl) s).
    cbn [fst snd]. intros [-> ->]. now apply Hp.
  - apply (via_get_get_thumbnail
             (touches (fun q : path => q.1.2 = i /\ q.2 = "thumbnail.jpg"))
             (fun q : path => q.1.2 = i /\ q.2 = "thumbnail.jpg")
             (touches__get _) (touches_write _) i u (fun _ => conj eq_refl eq_refl) s).
    cbn [fst snd]. intros [-> ->]. now apply Hp.
  - apply (via_get_get_exists
             (touches (fun q : path => q.1.2 = i /\ q.2 = "exists.json"))
             (fun q : path => q.1.2 = i /\ q.2 = "exists.json")
             (touches__get _) (touches_write _) i (fun _ => conj eq_refl eq_refl) s).
    cbn [fst snd]. intros [-> ->]. now apply Hp.
  - apply (via_get_get_model
             (touches (fun q : path => q.1.2 = i /\ (q.2 = "exists.json" \/ q.2 = "model.glb")))
             (fun q : path => q.1.2 = i /\ (q.2 = "exists.json" \/ q.2 = "model.glb"))
             (touches__get _) (touches_write _) i
             (fun _ => conj eq_refl (or_introl eq_refl))
             (fun _ => conj eq_refl (or_intror eq_refl)) s).
    cbn [fst snd]. intros [-> [-> | ->]]; apply Hp; [now left | now right].
Qed.

End Ownership.

(** ** The headers of every request of a session *)

Section Stamps.
Context {E : Env}.

#[local] Instance stamps_well_preorder : PreOrder stamps_well.
Proof.
  split.
  - intros s H1 H2. repeat split; auto. exists []. now rewrite app_nil_r.
  - intros a b c Hab Hbc H1 H2.
    destruct (Hab H1 H2) as (H1' & H2' & n1 & Hn1 & Hw1).
    destruct (Hbc H1' H2') as (H1'' & H2'' & n2 & Hn2 & Hw2).
    repeat split; auto. exists (n1 ++ n2).
    rewrite Hn2, Hn1, app_assoc. split; [reflexivity|]. now apply Forall_app.
Qed.





Lemma session_snoc ops op s : session (ops ++ [op]) s = st (call op (session ops s)).
Proof. unfold session. now rewrite fold_left_app. Qed.


End Stamps.

(** ** The cache only grows *)

Section Grows.
Context {E : Env}.

#[local] Instance cache_grows_preorder : PreOrder cache_grows.
Proof.
  split.
  - intros s. unfold cache_grows. reflexivity.
  - intros a b c. unfold cache_grows. intros. now transitivity (files b).
Qed.

Lemma cache_grows__get u ps h : keeps cache_grows (_get u ps h).
Proof.
  intros s. unfold cache_grows. destruct (_get_closed u ps h s) as [-> _].
  now rewrite after_get_files.
Qed.

Lemma cache_grows__get_json u ps h : keeps cache_grows (_get_json u ps h).
Proof.
  unfold _get_json. repeat frame_step; auto using cache_grows__get.
Qed.

Lemma grows_by_insert (s1 : state) (fs : gmap path string) p data :
  fs = files s1 -> files s1 !! p = None ->
  forall c h1 h2 snt,
    cache_grows s1 (State c h1 h2 (<[p := data]> fs) snt).
Proof.
  intros -> Hp c h1 h2 snt. unfold cache_grows. cbn [files]. now apply insert_subseteq.
Qed.

Lemma cache_grows_get_pip i : keeps cache_grows (get_pip i).
Proof.
  intros s. change (wp (get_pip i) s (fun _ s' _ => cache_grows s s')).
  unfold get_pip. wp_go.
  destruct (files s !! _) as [text|] eqn:Hf; cbn [negb]; wp_go.
  - rewrite Hf. wp_go. reflexivity.
  - apply wp__get_json. intros l.
    destruct (and_then _ _) as [data|e]; wp_go;
      [|unfold cache_grows; now rewrite after_get_files].
    destruct (disk_ok _); wp_go; [|unfold cache_grows; now rewrite after_get_files].
    cbn [files]. rewrite lookup_insert_eq. wp_go.
    apply grows_by_insert; [apply after_get_files | exact Hf].
Qed.

Lemma cache_grows_get_thumbnail i u : keeps cache_grows (get_thumbnail i u).
Proof.
  intros s. change (wp (get_thumbnail i u) s (fun _ s' _ => cache_grows s s')).
  unfold get_thumbnail. wp_go.
  destruct (files s !! _) as [text|] eqn:Hf; cbn [negb]; wp_go; [reflexivity|].
  apply wp__get. intros l.
  destruct (fetched _ _ _ _) as [data|e]; wp_go;
    [|unfold cache_grows; now rewrite after_get_files].
  destruct (disk_ok _); wp_go; [|unfold cache_grows; now rewrite after_get_files].
  apply grows_by_insert; [apply after_get_files | exact Hf].
Qed.

Lemma cache_grows_get_exists i : keeps cache_grows (get_exists i).
Proof.
  intros s. change (wp (get_exists i) s (fun _ s' _ => cache_grows s s')).
  unfold get_exists. wp_go.
  destruct (files s !! _) as [text|] eqn:Hf; cbn [negb]; wp_go.
  - rewrite Hf. wp_go. destruct (decoded text); wp_go; reflexivity.
  - apply wp__get. intros l.
    destruct (fetched _ _ _ _) as [data|e]; wp_go;
      [|unfold cache_grows; now rewrite after_get_files].
    destruct (disk_ok _); wp_go; [|unfold cache_grows; now rewrite after_get_files].
    cbn [files]. rewrite lookup_insert_eq. wp_go.
    destruct (decoded data); wp_go;
      (apply grows_by_insert; [apply after_get_files | exact Hf]).
Qed.

Lemma cache_grows_get_model i : keeps cache_grows (get_model i).
Proof.
  intros s. change (wp (get_model i) s (fun _ s' _ => cache_grows s s')).
  unfold get_model. wp_go.
  destruct (files s !! _) as [text|] eqn:Hf; cbn [negb]; wp_go; [reflexivity|].
  apply (wp_conseq _ _ _ (fun _ s1 _ =>
           cache_grows s s1 /\ files s1 !! (cache_dir (this s), i, "model.glb") = None)).
  { unfold wp. split; [apply cache_grows_get_exists|].
    destruct (get_exists_effect i s) as (_ & Hfiles & _).
    rewrite Hfiles; [exact Hf|]. unfold exists_path. intros [=]. }
  intros r s1 l1 [Hg Hnone].
  assert (Hend : forall s2, files s2 = files s1 -> cache_grows s s2).
  { intros s2 H2. unfold cache_grows in *. now rewrite H2. }
  destruct r as [found|e]; wp_go; [|now apply Hend].
  destruct (negb (Py.truthy found)); wp_go; [now apply Hend|].
  apply wp__get_json. intros l2.
  destruct (and_then _ _) as [rotera_data|e]; wp_go; [|apply Hend, after_get_files].
  destruct (Py.subscript rotera_data "modelUrl") as [modelUrl|e]; wp_go;
    [|apply Hend, after_get_files].
  destruct modelUrl; wp_go; try apply Hend, after_get_files.
  apply wp__get. intros l3.
  destruct (fetched _ _ _ _) as [data|e]; wp_go;
    [|apply Hend; now rewrite !after_get_files].
  destruct (disk_ok _); wp_go; [|apply Hend; now rewrite !after_get_files].
  transitivity s1; [exact Hg|].
  apply grows_by_insert; [now rewrite !after_get_files | exact Hnone].
Qed.

Lemma cache_grows_call op : keeps cache_grows (call op).
Proof.
  destruct op; cbn [call]; repeat frame_step;
    auto using cache_grows_get_pip, cache_grows_get_thumbnail,
               cache_grows_get_exists, cache_grows_get_model.
  apply via_search; try exact _;
    auto using cache_grows__get_json, cache_grows_get_exists.
Qed.

(** X7. Over any sequence of calls, a file that is in the cache stays in it
    with the content it has: nothing is overwritten and nothing is
    deleted. *)
Theorem cached_files_are_never_changed (ops : list operation) (s : state)
        (p : path) (data : string) :
  files s !! p = Some data ->
  files (session ops s) !! p = Some data.
Proof.
  intros Hp. cut (cache_grows s (session ops s)).
  { unfold cache_grows. intros H. eapply lookup_weaken; eauto. }
  induction ops as [|op ops IH] using rev_ind; [reflexivity|].
  rewrite session_snoc. transitivity (session ops s); [exact IH|].
  apply cache_grows_call.
Qed.

End Grows.

(** ** What the HTTP layer returns and raises *)

Section HttpLayer.
Context {E : Env}.

Lemma status_check (status : Z) :
  (status <? 200) || (status >=? 300) = negb ((200 <=? status) && (status <? 300)).
Proof.
  destruct (Z.ltb_spec status 200), (Z.leb_spec 200 status),
           (Z.ltb_spec status 300), (Z.geb_spec status 300); cbn; try reflexivity; lia.
Qed.

(** X4. [_get] sends exactly one request and writes no file; it returns the
    body when the status is in [200, 300), and otherwise, also when no
    response comes, raises the client error that names the URL and wraps
    the cause. *)
Theorem get_outcome (u : string) (ps : list (string * string)) (h : dict_ref)
        (s : state) :
  let o := _get u ps h s in
  let r := request_of u ps h s in
  sent (st o) = sent s ++ [r] /\
  files (st o) = files s /\
  match net (sent s) r with
  | Resp status reason data =>
      if (200 <=? status) && (status <? 300)
      then res o = Ok data
      else res o = Raise (IkeaException
                            (ErrorAt (Fetching u) (IkeaException (HttpError status reason))))
  | Fails why =>
      res o = Raise (IkeaException (ErrorAt (Fetching u) (TransportError why)))
  end.
Proof.
  cbn zeta. destruct (_get_closed u ps h s) as [-> ->].
  split; [apply after_get_sent|]. split; [apply after_get_files|].
  unfold fetched. destruct (net _ _) as [status reason data|why]; [|reflexivity].
  rewrite status_check. now destruct ((200 <=? status) && (status <? 300)).
Qed.

(** X5. [_get_json] ends in the state [_get] ends in; a body with a status
    in [200, 300) is decoded, and a body that is not JSON raises the
    decoder's own error, not the client error; the failures of [_get] pass
    through as they are. *)
Theorem get_json_outcome (u : string) (ps : list (string * string)) (h : dict_ref)
        (s : state) :
  let o := _get_json u ps h s in
  let r := request_of u ps h s in
  st o = st (_get u ps h s) /\
  match net (sent s) r with
  | Resp status reason data =>
      if (200 <=? status) && (status <? 300)
      then res o = match json_loads data with
                   | Some v => Ok v
                   | None => Raise JSONDecodeError
                   end
      else res o = Raise (IkeaException
                            (ErrorAt (Fetching u) (IkeaException (HttpError status reason))))
  | Fails why =>
      res o = Raise (IkeaException (ErrorAt (Fetching u) (TransportError why)))
  end.
Proof.
  cbn zeta. destruct (_get_closed u ps h s) as [-> _].
  change (wp (_get_json u ps h) s (fun r s' _ =>
    s' = after_get u ps h s /\
    match net (sent s) (request_of u ps h s) with
    | Resp status reason data =>
        if (200 <=? status) && (status <? 300)
        then r = match json_loads data with
                 | Some v => Ok v
                 | None => Raise JSONDecodeError
                 end
        else r = Raise (IkeaException
                          (ErrorAt (Fetching u) (IkeaException (HttpError status reason))))
    | Fails why => r = Raise (IkeaException (ErrorAt (Fetching u) (TransportError why)))
    end)).
  apply wp__get_json. intros _. split; [reflexivity|].
  unfold fetched. destruct (net _ _) as [status reason data|why]; [|reflexivity].
  rewrite status_check. now destruct ((200 <=? status) && (status <? 300)).
Qed.

End HttpLayer.

(** ** Hits, misses and failures of the cache-first operations *)

Section HitsAndMisses.
Context {E : Env}.

Lemma _get_json_closed u ps h s :
  st (_get_json u ps h s) = after_get u ps h s /\
  res (_get_json u ps h s) = and_then (fetched u ps h s) decoded.
Proof.
  change (wp (_get_json u ps h) s (fun r s' _ =>
            s' = after_get u ps h s /\ r = and_then (fetched u ps h s) decoded)).
  apply wp__get_json. auto.
Qed.


(** X10. When the file an operation stands for is in the cache, the call
    leaves the state as it is: no request is made, no file is written and
    the header dicts are as before. *)
Theorem cache_hit_needs_no_network (op : operation) (s : state) (p : path) :
  asset_path op s = Some p ->
  is_Some (files s !! p) ->
  st (call op s) = s.
Proof.
  intros Hp [data Hd].
  destruct op as [? | ? | ? | ? | i | i u | i | i]; try discriminate Hp;
    cbn [call asset_path] in *; injection Hp as <-; rewrite st_bind_ret.
  - now rewrite (get_pip_hit _ _ _ Hd).
  - now rewrite (get_thumbnail_hit _ _ _ _ Hd).
  - now rewrite (get_exists_hit _ _ _ Hd).
  - now rewrite (get_model_hit _ _ _ Hd).
Qed.




End HitsAndMisses.

(** ** What [search] returns *)

Section SearchResults.
Context {E : Env}.

Lemma wp_any {A} (m : M A) s (Q : result A -> state -> list (level * event) -> Prop) :
  (forall r s' l, Q r s' l) -> wp m s Q.
Proof. intros H. apply H. Qed.

Lemma omap_cons {A B} (f : A -> option B) x l :
  omap f (x :: l) = option_list (f x) ++ omap f l.
Proof. cbn. now destruct (f x). Qed.

(** One turn of the loop adds nothing, or the projection of the item. *)
Lemma search_item_adds results item s :
  wp (search_item results item) s
     (fun r _ _ => forall rs, r = Ok rs ->
        exists added, rs = results ++ added /\ added `sublist_of` option_list (projection item)).
Proof.
  assert (Hnone : forall rs, Ok results = Ok rs ->
            exists added, rs = results ++ added /\
                          added `sublist_of` option_list (projection item)).
  { intros rs [= <-]. exists []. rewrite app_nil_r. split; [reflexivity|apply sublist_nil_l]. }
  unfold search_item. wp_go.
  destruct (Py.subscript item "product") as [p|e] eqn:Hp; wp_go; [|discriminate].
  apply wp_any. intros [valid|e] s1 l1; [|discriminate].
  apply wp_bind.
  apply (wp_conseq _ _ _ (fun _ _ _ => True)); [exact I|].
  intros [valid'|e] s2 l2 _; [|discriminate].
  destruct valid'; wp_go; [|exact Hnone].
  unfold projection. rewrite Hp.
  destruct (Py.subscript p "itemNo"); wp_go; [|discriminate].
  destruct (Py.subscript p "name"); wp_go; [|discriminate].
  destruct (Py.subscript p "mainImageUrl"); wp_go; [|discriminate].
  destruct (Py.subscript p "mainImageAlt"); wp_go; [|discriminate].
  destruct (Py.subscript p "pipUrl"); wp_go; [|discriminate].
  intros rs [= <-]. eexists. split; [reflexivity|]. cbn [option_list]. reflexivity.
Qed.

Lemma search_loop_adds items : forall results s,
  wp (foldM search_item items results) s
     (fun r _ _ => forall rs, r = Ok rs ->
        exists added, rs = results ++ added /\ added `sublist_of` omap projection items).
Proof.
  induction items as [|item items IH]; intros results s; cbn [foldM].
  - wp_go. intros rs [= <-]. exists []. now rewrite app_nil_r.
  - apply wp_bind. eapply wp_conseq; [apply search_item_adds|]. cbn beta.
    intros [rs1|e] s1 l1 H1; [|discriminate].
    destruct (H1 rs1 eq_refl) as (a1 & -> & Ha1).
    eapply wp_conseq; [apply IH|]. cbn beta.
    intros r s2 l2 H2 rs Hr. destruct (H2 rs Hr) as (a2 & -> & Ha2).
    exists (a1 ++ a2). rewrite app_assoc. split; [reflexivity|].
    rewrite omap_cons. now apply sublist_app.
Qed.

(** X15. What [search] returns is, in the order of the response, a
    sub-sequence of the response items that have a product with all five
    fields, each reduced to those five fields. *)
Theorem search_returns_projections_in_order (query : string) (s : state)
        (results : list json) :
  res (search query s) = Ok results ->
  exists doc items,
    res (_get_json (search_url (this s)) (search_params query) GetJsonDefault s) = Ok doc /\
    items_of doc = Ok items /\
    results `sublist_of` omap projection items.
Proof.
  change (wp (search query) s (fun r _ _ => r = Ok results ->
    exists doc items,
      res (_get_json (search_url (this s)) (search_params query) GetJsonDefault s) = Ok doc /\
      items_of doc = Ok items /\
      results `sublist_of` omap projection items)).
  destruct (_get_json_closed (search_url (this s)) (search_params query) GetJsonDefault s)
    as [_ ->].
  unfold search. wp_go. apply wp__get_json. intros l0.
  destruct (and_then _ decoded) as [doc|e]; wp_go; [|discriminate].
  destruct (Py.subscript doc "searchResultPage") as [page|e] eqn:H1; wp_go; [|discriminate].
  destruct (Py.subscript page "products") as [products|e] eqn:H2; wp_go; [|discriminate].
  destruct (Py.subscript products "main") as [main|e] eqn:H3; wp_go; [|discriminate].
  destruct (Py.subscript main "items") as [items|e] eqn:H4; wp_go; [|discriminate].
  destruct (Py.iterate items) as [its|e] eqn:Hits; wp_go; [|discriminate].
  eapply wp_conseq; [apply search_loop_adds|]. cbn beta.
  intros [rs|e] s1 l1 Hrs; [|discriminate].
  destruct (Hrs rs eq_refl) as (added & -> & Hadded). cbn [app] in *.
  assert (Hdone : Ok added = Ok results ->
            exists doc0 items0, Ok doc = Ok doc0 /\ items_of doc0 = Ok items0 /\
              results `sublist_of` omap projection items0).
  { intros [= <-]. exists doc, its. unfold items_of.
    rewrite H1. cbn [and_then]. rewrite H2. cbn [and_then]. rewrite H3. cbn [and_then].
    rewrite H4. cbn [and_then]. auto. }
  destruct added; wp_go; exact Hdone.
Qed.

(** X16. When the search request fails or its body is not JSON, [search]
    raises the client error that names the query and wraps the cause; it
    has sent that one request and written no file. *)
Theorem search_request_failure (query : string) (s : state) (e : exn) :
  res (_get_json (search_url (this s)) (search_params query) GetJsonDefault s) = Raise e ->
  res (search query s) = Raise (IkeaException (ErrorAt (Searching query) e)) /\
  files (st (search query s)) = files s /\
  exists r, sent (st (search query s)) = sent s ++ [r] /\ url r = search_url (this s).
Proof.
  destruct (_get_json_closed (search_url (this s)) (search_params query) GetJsonDefault s)
    as [_ ->].
  intros He.
  change (wp (search query) s (fun r s' _ =>
    r = Raise (IkeaException (ErrorAt (Searching query) e)) /\
    files s' = files s /\
    exists q, sent s' = sent s ++ [q] /\ url q = search_url (this s))).
  unfold search. wp_go. apply wp__get_json. intros l0. rewrite He. wp_go.
  rewrite after_get_files, after_get_sent. repeat split. eauto.
Qed.

(** X17. A response without items is no error: [search] returns the empty
    list, logs that nothing was found and does nothing after the search
    request. *)
Theorem search_without_items (query : string) (s : state) (doc : json) :
  res (_get_json (search_url (this s)) (search_params query) GetJsonDefault s) = Ok doc ->
  items_of doc = Ok [] ->
  res (search query s) = Ok [] /\
  st (search query s) =
    st (_get_json (search_url (this s)) (search_params query) GetJsonDefault s) /\
  (INFO, NoProductsFound query) ∈ log (search query s).
Proof.
  destruct (_get_json_closed (search_url (this s)) (search_params query) GetJsonDefault s)
    as [-> ->].
  intros Hdoc Hitems.
  change (wp (search query) s (fun r s' l =>
    r = Ok [] /\
    s' = after_get (search_url (this s)) (search_params query) GetJsonDefault s /\
    (INFO, NoProductsFound query) ∈ l)).
  unfold search, items_of in *. wp_go. apply wp__get_json. intros l0. rewrite Hdoc. wp_go.
  destruct (Py.subscript doc "searchResultPage") as [page|e]; [|discriminate].
  cbn [and_then] in Hitems. wp_go.
  destruct (Py.subscript page "products") as [products|e]; [|discriminate].
  cbn [and_then] in Hitems. wp_go.
  destruct (Py.subscript products "main") as [main|e]; [|discriminate].
  cbn [and_then] in Hitems. wp_go.
  destruct (Py.subscript main "items") as [items|e]; [|discriminate].
  cbn [and_then] in Hitems. wp_go. rewrite Hitems. wp_go. cbn [foldM]. wp_go.
  repeat split. rewrite !elem_of_app, !list_elem_of_singleton. tauto.
Qed.

Lemma projection_fields item kvs v :
  Py.subscript item "product" = Ok (JObj kvs) ->
  projection item = Some v ->
  exists a b c d e,
    Py.dict_get "itemNo" kvs = Some a /\ Py.dict_get "name" kvs = Some b /\
    Py.dict_get "mainImageUrl" kvs = Some c /\ Py.dict_get "mainImageAlt" kvs = Some d /\
    Py.dict_get "pipUrl" kvs = Some e /\
    v = JObj [("itemNo", a); ("name", b); ("mainImageUrl", c); ("mainImageAlt", d);
              ("pipUrl", e)].
Proof.
  intros Hp. unfold projection. rewrite Hp. cbn [Py.subscript].
  destruct (Py.dict_get "itemNo" kvs) as [a|]; [|discriminate].
  destruct (Py.dict_get "name" kvs) as [b|]; [|discriminate].
  destruct (Py.dict_get "mainImageUrl" kvs) as [c|]; [|discriminate].
  destruct (Py.dict_get "mainImageAlt" kvs) as [d|]; [|discriminate].
  destruct (Py.dict_get "pipUrl" kvs) as [e|]; [|discriminate].
  intros [= <-]. exists a, b, c, d, e. repeat split; reflexivity.
Qed.

(** X18. An item that has all five fields and a string item number is kept
    exactly when the existence check for that number returns a true value;
    it is then appended, reduced to its five fields, and otherwise the
    results are as before. *)
Theorem search_item_follows_the_existence_check
        (results : list json) (item : json) (kvs : list (string * json))
        (v : json) (i : string) (s s1 : state) (l : list (level * event))
        (found : json) :
  Py.subscript item "product" = Ok (JObj kvs) ->
  projection item = Some v ->
  Py.dict_get "itemNo" kvs = Some (JStr i) ->
  get_exists i s = Out (Ok found) s1 l ->
  res (search_item results item s) =
    Ok (if Py.truthy found then results ++ [v] else results) /\
  st (search_item results item s) = s1.
Proof.
  intros Hp Hv Hi Hex.
  destruct (projection_fields _ _ _ Hp Hv) as (a & b & c & d & e & Ha & Hb & Hc & Hd & He & ->).
  rewrite Hi in Ha. injection Ha as <-.
  assert (Hall : forallb (fun f => negb (missing kvs f)) required_fields = true).
  { apply forallb_forall. intros f Hf%list_elem_of_In.
    rewrite required_fields_perm in Hf. unfold missing.
    repeat (apply elem_of_cons in Hf as [-> | Hf]);
      [now rewrite Hi | now rewrite Hc | now rewrite Hd | now rewrite He |].
    now apply elem_of_nil in Hf. }
  change (wp (search_item results item) s (fun r s' _ =>
    r = Ok (if Py.truthy found
            then results ++ [JObj [("itemNo", JStr i); ("name", b); ("mainImageUrl", c);
                                   ("mainImageAlt", d); ("pipUrl", e)]]
            else results) /\ s' = s1)).
  unfold search_item. wp_go. rewrite Hp. wp_go.
  eapply wp_known; [apply (check_fields_of_object _ b); exact Hb|]. cbn beta iota.
  rewrite Hall. cbn [andb]. wp_go. cbn [Py.subscript]. rewrite Hi. wp_go.
  cbn [get_exists_of]. eapply wp_known; [exact Hex|]. cbn beta iota.
  destruct (Py.truthy found); cbn [negb]; wp_go; rewrite Hb; wp_go.
  - rewrite Hc. wp_go. rewrite Hd. wp_go. rewrite He. wp_go. auto.
  - auto.
Qed.

End SearchResults.

(** ** The command line *)

Section CommandLine.
Context {E : Env}.

(** X19. The command line compacts the item number before use: two item
    numbers with the same digits give the same run of the [metadata] and
    [model] commands. *)
Theorem main_depends_on_the_digits_only (args : cli_args) (x y : string)
        (disk : gmap path string) :
  digits_of x = digits_of y ->
  main (with_item args x) disk = main (with_item args y) disk.
Proof.
  intros Hxy. unfold main, with_item. cbn [arg_cmd arg_country arg_language].
  destruct (arg_cmd args) as [query | i | i |];
    [reflexivity | | | reflexivity];
    now rewrite !compact_item_no_digits, Hxy.
Qed.

(** X20. The [metadata] and [model] commands change no file outside the
    item directory named by the digits of the argument. *)
Theorem main_writes_under_the_digits_only (args : cli_args) (x : string)
        (disk : gmap path string) (p : path) :
  arg_cmd args = CmdMetadata x \/ arg_cmd args = CmdModel x ->
  p.1.2 <> digits_of x ->
  files (st (main args disk)) !! p = disk !! p.
Proof.
  intros Hcmd Hp. unfold main.
  set (s0 := State _ ∅ ∅ disk []).
  transitivity (files s0 !! p); [|reflexivity].
  destruct Hcmd as [-> | ->]; rewrite compact_item_no_digits, st_bind_ret.
  - exact (via_get_get_pip (touches (fun q : path => q.1.2 = digits_of x))
             (fun q : path => q.1.2 = digits_of x)
             (touches__get _) (touches_write _) (digits_of x) (fun _ => eq_refl) s0 p Hp).
  - exact (via_get_get_model (touches (fun q : path => q.1.2 = digits_of x))
             (fun q : path => q.1.2 = digits_of x)
             (touches__get _) (touches_write _) (digits_of x)
             (fun _ => eq_refl) (fun _ => eq_refl) s0 p Hp).
Qed.


End CommandLine.

(** ** The statements above on sample runs *)

Lemma cached_files_are_never_changed_witness :
  let ops := [GetModel "12345678"; Search "billy"; GetPip "12345678"] in
  let p : path := ("cache", "12345678", "pip.json") in
  files Sample.corrupt_pip !! p = Some "<html>" /\
  files (session (E := Runs.online) ops Sample.corrupt_pip) !! p = Some "<html>".
Proof.
  cbn zeta. split; [reflexivity|].
  apply (cached_files_are_never_changed (E := Runs.online)). reflexivity.
Defined.

Lemma operations_write_only_their_files_witness :
  let p : path := ("cache", "12345678", "exists.json") in
  is_compact "12345678" = true /\
  cache_file Sample.ie p = true /\
  ~ own (GetPip "12345678") Sample.ie p /\
  files (st (call (E := Runs.online) (GetPip "12345678") Sample.ie)) !! p
  = files Sample.ie !! p.
Proof.
  cbn zeta.
  assert (H : ~ own (GetPip "12345678") Sample.ie ("cache", "12345678", "exists.json")).
  { cbn. intros H. discriminate H. }
  split; [reflexivity|]. split; [reflexivity|]. split; [exact H|].
  apply (operations_write_only_their_files (E := Runs.online)
           (GetPip "12345678") "12345678" Sample.ie ("cache", "12345678", "exists.json")
           eq_refl eq_refl eq_refl H).
Defined.


Lemma cache_hit_needs_no_network_witness :
  let p : path := ("cache", "12345678", "pip.json") in
  asset_path (GetPip "12345678") Sample.corrupt_pip = Some p /\
  is_Some (files Sample.corrupt_pip !! p) /\
  st (call (E := Runs.offline) (GetPip "12345678") Sample.corrupt_pip) = Sample.corrupt_pip.
Proof.
  cbn zeta.
  assert (H : is_Some (files Sample.corrupt_pip !! ("cache", "12345678", "pip.json")))
    by (exists "<html>"; reflexivity).
  split; [reflexivity|]. split; [exact H|].
  apply (cache_hit_needs_no_network (E := Runs.offline) (GetPip "12345678")
           Sample.corrupt_pip ("cache", "12345678", "pip.json") eq_refl H).
Defined.




Lemma search_returns_projections_in_order_witness :
  res (search (E := Runs.online) "billy" Sample.ie) = Ok [Runs.billy_result] /\
  exists doc items,
    res (_get_json (E := Runs.online) (search_url (this Sample.ie)) (search_params "billy")
           GetJsonDefault Sample.ie) = Ok doc /\
    items_of doc = Ok items /\
    [Runs.billy_result] `sublist_of` omap projection items.
Proof.
  assert (H : res (search (E := Runs.online) "billy" Sample.ie) = Ok [Runs.billy_result])
    by (vm_compute; reflexivity).
  split; [exact H|].
  apply (search_returns_projections_in_order (E := Runs.online) "billy" Sample.ie _ H).
Defined.

Lemma search_request_failure_witness :
  let o := _get_json (E := Runs.offline) (search_url (this Sample.ie))
             (search_params "billy") GetJsonDefault Sample.ie in
  res o = Raise (Runs.raised o) /\
  res (search (E := Runs.offline) "billy" Sample.ie)
  = Raise (IkeaException (ErrorAt (Searching "billy") (Runs.raised o))) /\
  files (st (search (E := Runs.offline) "billy" Sample.ie)) = files Sample.ie.
Proof.
  cbn zeta.
  assert (H : res (_get_json (E := Runs.offline) (search_url (this Sample.ie))
                     (search_params "billy") GetJsonDefault Sample.ie)
              = Raise (Runs.raised
                         (_get_json (E := Runs.offline) (search_url (this Sample.ie))
                            (search_params "billy") GetJsonDefault Sample.ie)))
    by (vm_compute; reflexivity).
  split; [exact H|].
  destruct (search_request_failure (E := Runs.offline) "billy" Sample.ie _ H)
    as (H1 & H2 & _).
  split; [exact H1 | exact H2].
Defined.

Lemma search_without_items_witness :
  items_of (Sample.search_page []) = Ok [] /\
  res (search (E := Runs.nothing_found) "billy" Sample.ie) = Ok [] /\
  (INFO, NoProductsFound "billy") ∈ log (search (E := Runs.nothing_found) "billy" Sample.ie).
Proof.
  split; [reflexivity|].
  destruct (search_without_items (E := Runs.nothing_found) "billy" Sample.ie
              (Sample.search_page [])) as (H1 & _ & H3);
    [.. | split; [exact H1 | exact H3]]; vm_compute; reflexivity.
Defined.

Lemma search_item_follows_the_existence_check_witness :
  let o := get_exists (E := Runs.online) "12345678" Sample.ie in
  projection Sample.billy = Some Runs.billy_result /\
  res o = Ok (JBool true) /\
  res (search_item (E := Runs.online) [] Sample.billy Sample.ie) = Ok [Runs.billy_result] /\
  st (search_item (E := Runs.online) [] Sample.billy Sample.ie) = st o.
Proof.
  cbn zeta. split; [reflexivity|]. split; [vm_compute; reflexivity|].
  apply (search_item_follows_the_existence_check (E := Runs.online)
           [] Sample.billy Runs.billy_fields Runs.billy_result "12345678" Sample.ie
           (st (get_exists (E := Runs.online) "12345678" Sample.ie))
           (log (get_exists (E := Runs.online) "12345678" Sample.ie))
           (JBool true));
    vm_compute; reflexivity.
Defined.

Lemma main_depends_on_the_digits_only_witness :
  digits_of "123.456.78" = digits_of "12345678" /\
  main (E := Runs.online) (with_item Runs.model_command "123.456.78") ∅
  = main (E := Runs.online) (with_item Runs.model_command "12345678") ∅.
Proof.
  split; [reflexivity|].
  apply (main_depends_on_the_digits_only (E := Runs.online)). reflexivity.
Defined.

Lemma main_writes_under_the_digits_only_witness :
  let p : path := ("cache", "123.456.78", "model.glb") in
  (p.1.2 : string) <> digits_of "123.456.78" /\
  files (st (main (E := Runs.online) Runs.model_command ∅)) !! p = None.
Proof.
  cbn zeta.
  assert (H : (("cache", "123.456.78", "model.glb") : path).1.2 <> digits_of "123.456.78")
    by (intros H; discriminate H).
  split; [exact H|].
  rewrite (main_writes_under_the_digits_only (E := Runs.online) Runs.model_command
             "123.456.78" ∅ ("cache", "123.456.78", "model.glb") (or_intror eq_refl) H).
  reflexivity.
Defined.

